(** * The durable action scheduler of BUSY

    A shallow embedding of [app/scheduler/__init__.py] (the registry, the
    startup scan, schedule / cancel, the execution wrapper and the typed
    [Action] base class) and of the billing actions of
    [app/common/billing_actions.py] that are built on it.

    Conventions.
    - A [datetime] is an integer number of microseconds, a [timedelta] too;
      the calendar bound of the year 9999 is not represented.
    - The two module-level dictionaries [handlers] and [scheduled_tasks], the
      tables [scheduled_actions] and [users], the tasks created on the event
      loop and the log are the fields of one explicit [State].
    - A coroutine is a function [State -> result A]: it either returns or
      raises, and in both cases leaves a state behind. *)

From stdpp Require Import gmap strings list fin_maps.
From Stdlib Require Import ZArith Lia.

Local Open Scope string_scope.
Local Open Scope Z_scope.

Set Warnings "-register-all".

(** ** Python values that can live in the JSON column [args] *)

Inductive pyval :=
| PNone
| PBool (b : bool)
| PInt (z : Z)
| PStr (s : string)
| PList (l : list pyval).

(** Truth value of an object, as used by [bool(x)], [if x] and [assert x]. *)
Definition truthy (v : pyval) : bool :=
  match v with
  | PNone => false
  | PBool b => b
  | PInt z => negb (z =? 0)
  | PStr s => negb (String.eqb s "")
  | PList l => match l with [] => false | _ => true end
  end.

(** Keyword arguments, and every [dict[str, Any]] of the source. *)
Abbreviation kwargs := (gmap string pyval).

(** ** Exceptions and log records *)

Inductive exn :=
| ValueError
| AssertionError
| TypeError
| LookupError
| AttributeError
| CancelledError
| IntegrityError
| DataError
| CpPaymentError
| BadRequest
| OtherException (name : string).

Inductive log_level := LInfo | LWarning | LError | LException.

(** ** Rows, tasks and the registry *)

(** [db.ScheduledAction]; the primary key [id] is the key under which the
    row is stored in [actions] below. *)
Record ScheduledAction := mkScheduledAction {
  sa_user_id : option Z;
  sa_time : Z;
  sa_done : bool;
  sa_type : string;
  sa_args : kwargs;
}.

(** [db.Plan] and [db.User], with the columns the billing actions read. *)
Record Plan := mkPlan {
  plan_id : Z;
  plan_price : option Z;
}.

Record User := mkUser {
  telegram_id : option string;
  subscription : option Plan;
  payment_token : option string;
  extra_data : kwargs;
}.

(** A concrete subclass of [Action]: its qualified name, the [action_name]
    it was declared with, and its dataclass fields in declaration order,
    each with its default value when it has one. *)
Record ActionClass := mkActionClass {
  cls_qualname : string;
  cls_action_name : string;
  cls_fields : list (string * option pyval);
}.

(** An instance of such a class: the class and the values of its fields. *)
Record Action := mkAction {
  act_cls : ActionClass;
  act_vals : kwargs;
}.

(** What the dictionary [handlers] holds: the closure [do_handle] that
    [Action.__init_subclass__] builds for a class, or a plain function
    registered through [raw_action_handler], known by its name. *)
Inductive Handler :=
| DoHandle (cls : ActionClass)
| RawHandler (func : string).

Inductive task_state := TaskPending | TaskFinished | TaskCancelled.

(** An [asyncio.Task] running
    [_scheduled_action_task(action_id, action_type, dt, **kwargs)]. *)
Record Task := mkTask {
  task_action_id : Z;
  task_action_type : string;
  task_dt : Z;
  task_kwargs : kwargs;
  task_status : task_state;
}.

Record State := mkState {
  actions : gmap Z ScheduledAction;   (* table scheduled_actions *)
  action_id_seq : Z;                  (* its autoincrement sequence *)
  users : gmap Z User;                (* table users *)
  handlers : gmap string Handler;     (* scheduler.handlers *)
  loop_tasks : list Task;             (* every task given to the event loop *)
  scheduled_tasks : gmap Z nat;       (* scheduler.scheduled_tasks: id -> task *)
  log : list (log_level * string);
}.

(** ** Coroutines: state and exceptions *)

Inductive result (A : Type) :=
| Ok (a : A) (s : State)
| Raise (e : exn) (s : State).
Arguments Ok {A} a s.
Arguments Raise {A} e s.

Definition M (A : Type) : Type := State -> result A.

Definition ret {A} (a : A) : M A := fun s => Ok a s.
Definition raise {A} (e : exn) : M A := fun s => Raise e s.
Definition bind {A B} (m : M A) (k : A -> M B) : M B := fun s =>
  match m s with
  | Ok a s' => k a s'
  | Raise e s' => Raise e s'
  end.

Notation "'let*' x ':=' m 'in' k" := (bind m (fun x => k))
  (at level 10, x pattern, m at level 100, k at level 200).
Notation "m '>>' k" := (bind m (fun _ => k))
  (at level 100, k at level 200, right associativity).

(** A pure computation that may raise, lifted into a coroutine. *)
Definition lift {A} (r : exn + A) : M A :=
  match r with
  | inl e => raise e
  | inr a => ret a
  end.

Fixpoint for_each {A} (l : list A) (body : A -> M unit) : M unit :=
  match l with
  | [] => ret tt
  | x :: l' => body x >> for_each l' body
  end.

Definition state_of {A} (r : result A) : State :=
  match r with
  | Ok _ s => s
  | Raise _ s => s
  end.

(** *** Field updates *)

Definition set_actions (f : gmap Z ScheduledAction -> gmap Z ScheduledAction) (s : State) : State :=
  mkState (f (actions s)) (action_id_seq s) (users s) (handlers s)
          (loop_tasks s) (scheduled_tasks s) (log s).
Definition set_action_id_seq (f : Z -> Z) (s : State) : State :=
  mkState (actions s) (f (action_id_seq s)) (users s) (handlers s)
          (loop_tasks s) (scheduled_tasks s) (log s).
Definition set_users (f : gmap Z User -> gmap Z User) (s : State) : State :=
  mkState (actions s) (action_id_seq s) (f (users s)) (handlers s)
          (loop_tasks s) (scheduled_tasks s) (log s).
Definition set_handlers (f : gmap string Handler -> gmap string Handler) (s : State) : State :=
  mkState (actions s) (action_id_seq s) (users s) (f (handlers s))
          (loop_tasks s) (scheduled_tasks s) (log s).
Definition set_loop_tasks (f : list Task -> list Task) (s : State) : State :=
  mkState (actions s) (action_id_seq s) (users s) (handlers s)
          (f (loop_tasks s)) (scheduled_tasks s) (log s).
Definition set_scheduled_tasks (f : gmap Z nat -> gmap Z nat) (s : State) : State :=
  mkState (actions s) (action_id_seq s) (users s) (handlers s)
          (loop_tasks s) (f (scheduled_tasks s)) (log s).
Definition set_log (f : list (log_level * string) -> list (log_level * string)) (s : State) : State :=
  mkState (actions s) (action_id_seq s) (users s) (handlers s)
          (loop_tasks s) (scheduled_tasks s) (f (log s)).

(** [logging.info], [logging.warning], [logging.error], [logging.exception]. *)
Definition logging (lvl : log_level) (msg : string) : M unit := fun s =>
  Ok tt (set_log (fun l => (l ++ [(lvl, msg)])%list) s).

(** The state after a warning has been logged. *)
Definition warned (msg : string) (s : State) : State :=
  set_log (fun l => (l ++ [(LWarning, msg)])%list) s.

Definition no_handler_msg : string :=
  "Handler is not set for scheduled actions of this type".

Definition task_exception_msg : string :=
  "Exception occurred during execution of scheduled task".

(** ** app/db/interface.py *)

(** What a transaction that is rolled back undoes: the writes to the tables.
    The sequence, the dictionaries, the tasks and the log are not part of it. *)
Definition rollback (before after : State) : State :=
  mkState (actions before) (action_id_seq after) (users before) (handlers after)
          (loop_tasks after) (scheduled_tasks after) (log after).

(** [async with DatabaseApi().session(allow_reuse=...)]. [cur_session] tells
    whether the calling context already has a session. A reused session is
    handed through unchanged; a new one wraps the block in [session.begin()],
    which commits when the block returns and rolls back when it raises.
    Inside the block a session is current. *)
Definition session {A} (allow_reuse cur_session : bool) (block : bool -> M A) : M A := fun s =>
  if allow_reuse && cur_session then block true s
  else match block true s with
       | Ok a s' => Ok a s'
       | Raise e s' => Raise e (rollback s s')
       end.

(** The property [cur_session]: a [LookupError] outside every session. *)
Definition require_session (cur_session : bool) : M unit :=
  if cur_session then ret tt else raise LookupError.

Definition get_scheduled_action (cur_session : bool) (action_id : Z)
  : M (option ScheduledAction) :=
  require_session cur_session >>
  fun s => Ok (actions s !! action_id) s.

Definition matches_filter (user_id : option Z) (done : option bool)
    (action_types : option (list string)) (a : ScheduledAction) : bool :=
  match user_id with
  | Some u => bool_decide (sa_user_id a = Some u)
  | None => true
  end
  && match action_types with
     | Some tys => bool_decide (sa_type a ∈ tys)
     | None => true
     end
  && match done with
     | Some d => Bool.eqb (sa_done a) d
     | None => true
     end.

Definition find_scheduled_actions (cur_session : bool) (user_id : option Z)
    (done : option bool) (action_types : option (list string))
  : M (list (Z * ScheduledAction)) :=
  require_session cur_session >>
  fun s => Ok (List.filter (fun r => matches_filter user_id done action_types r.2)
                           (map_to_list (actions s))) s.

(** [find_user(user_id=...)]: [enforce_single_key] asserts that exactly one
    key is truthy, so a falsy id is refused before the query is built; a
    value that is not an integer cannot be compared with the column. *)
Definition find_user (cur_session : bool) (user_id : pyval) : M (option (Z * User)) :=
  require_session cur_session >>
  if truthy user_id then
    match user_id with
    | PInt u => fun s => Ok ((fun usr => (u, usr)) <$> users s !! u) s
    | _ => raise DataError
    end
  else raise AssertionError.

(** [session.add(action); await session.flush()] for a new row: the column
    [user_id] takes an integer or NULL and references [users.id]; the key
    comes from the sequence. *)
Definition flush_new_action (user_id : option pyval) (time : Z) (type : string)
    (args : kwargs) : M Z := fun s =>
  let id := action_id_seq s in
  let insert (uid : option Z) :=
    match actions s !! id with
    | Some _ => Raise IntegrityError (set_action_id_seq Z.succ s)
    | None =>
        Ok id (set_actions <[id := mkScheduledAction uid time false type args]>
                 (set_action_id_seq Z.succ s))
    end in
  match user_id with
  | None | Some PNone => insert None
  | Some (PInt u) =>
      match users s !! u with
      | Some _ => insert (Some u)
      | None => Raise IntegrityError (set_action_id_seq Z.succ s)
      end
  | Some _ => Raise DataError s
  end.

(** [action.done = True], on a row and on the row loaded under [action_id]. *)
Definition mark_done (a : ScheduledAction) : ScheduledAction :=
  mkScheduledAction (sa_user_id a) (sa_time a) true (sa_type a) (sa_args a).

Definition set_done (action_id : Z) : M unit := fun s =>
  Ok tt (set_actions (alter mark_done action_id) s).

(** The flag [done] of the row [action_id], when there is such a row. *)
Definition done_flag (action_id : Z) (s : State) : option bool :=
  sa_done <$> actions s !! action_id.

(** ** app/scheduler/__init__.py *)

(** [asyncio.sleep(delay)] entered at instant [now]: the instant at which
    the caller resumes. A delay that is zero or negative only yields to the
    loop and resumes without waiting. *)
Definition asyncio_sleep (delay now : Z) : Z :=
  if delay <=? 0 then now else now + delay.

(** [wait_until(dt)], entered at instant [now]. The source passes the
    difference to [asyncio.sleep] in seconds; its sign is what decides. *)
Definition wait_until (dt now : Z) : Z :=
  asyncio_sleep (dt - now) now.

(** Building the coroutine [_scheduled_action_task(action_id, action_type,
    dt, **kwargs)] and handing it to [asyncio.create_task]: a keyword that
    repeats one of the three named parameters is a [TypeError]; otherwise
    the new task is pending and the result refers to it. *)
Definition clashes (params : list string) (kw : kwargs) : Prop :=
  Exists (fun p => is_Some (kw !! p)) params.

Definition task_params : list string := ["action_id"; "action_type"; "dt"].

Definition create_scheduled_action_task (action_id : Z) (action_type : string)
    (dt : Z) (kw : kwargs) : M nat := fun s =>
  if bool_decide (clashes task_params kw)
  then Raise TypeError s
  else Ok (length (loop_tasks s))
          (set_loop_tasks
             (fun l => (l ++ [mkTask action_id action_type dt kw TaskPending])%list) s).

(** [scheduled_tasks[action_id] = task]. *)
Definition index_task (action_id : Z) (task : nat) : M unit := fun s =>
  Ok tt (set_scheduled_tasks <[action_id := task]> s).

(** [task.cancel()]: only a task that has not finished is affected. *)
Definition cancel_task (task : nat) : M unit := fun s =>
  Ok tt (set_loop_tasks (fun l =>
    match l !! task with
    | Some t =>
        match task_status t with
        | TaskPending =>
            <[task := mkTask (task_action_id t) (task_action_type t) (task_dt t)
                             (task_kwargs t) TaskCancelled]> l
        | _ => l
        end
    | None => l
    end) s).

Definition _get_scheduled_actions (cur_session : bool) : M (list (Z * ScheduledAction)) :=
  require_session cur_session >>
  fun s => Ok (List.filter (fun r => negb (sa_done r.2)) (map_to_list (actions s))) s.

(** The task that [run()] creates for a row, and the body of its loop. *)
Definition task_of (action : Z * ScheduledAction) : Task :=
  mkTask action.1 (sa_type action.2) (sa_time action.2) (sa_args action.2) TaskPending.

Definition arm (action : Z * ScheduledAction) : M unit :=
  let* task := create_scheduled_action_task action.1 (sa_type action.2)
                 (sa_time action.2) (sa_args action.2) in
  index_task action.1 task.

(** [run()] up to the log line: the startup scan. The idle loop that follows
    only keeps the coroutine alive. *)
Definition run : M unit :=
  session false false (fun cur =>
    let* actions := _get_scheduled_actions cur in
    for_each actions arm) >>
  logging LInfo "Action scheduler initialized".

Definition raw_schedule_action (cur_session : bool) (action_type : string)
    (time : Z) (kw : kwargs) : M Z :=
  session true cur_session (fun cur =>
    let* action_id := flush_new_action (kw !! "user_id") time action_type kw in
    let* task := create_scheduled_action_task action_id action_type time kw in
    index_task action_id task >>
    ret action_id).

Definition raw_cancel_action (cur_session : bool) (action_id : Z) : M unit :=
  session true cur_session (fun cur =>
    let* action := get_scheduled_action cur action_id in
    match action with
    | None =>
        logging LWarning "Tried to cancel action which doesn't exist"
    | Some action =>
        if sa_done action then
          logging LWarning "Tried to cancel action which is already done"
        else
          set_done action_id >>
          fun s =>
            match scheduled_tasks s !! action_id with
            | None =>
                logging LError "Action is not planned by the scheduler somehow.." s
            | Some task =>
                (cancel_task task >>
                 fun s' => Ok tt (set_scheduled_tasks (delete action_id) s')) s
            end
    end).

(** [raw_action_handler(action_type)(func)]. *)
Definition raw_action_handler (action_type : string) (func : string) : M unit := fun s =>
  Ok tt (set_handlers <[action_type := RawHandler func]> s).

(** *** The typed [Action] base class *)

Definition field_names (cls : ActionClass) : list string := (cls_fields cls).*1.

(** [Action.__init_subclass__], run when the class statement of [cls] is
    executed with [action_name = cls_action_name cls]. *)
Definition init_subclass (cls : ActionClass) : M unit := fun s =>
  match handlers s !! cls_action_name cls with
  | Some _ => Raise ValueError s
  | None => Ok tt (set_handlers <[cls_action_name cls := DoHandle cls]> s)
  end.

Definition get_name (cls : ActionClass) : string := cls_action_name cls.

(** [dataclasses._asdict_inner] on a field value: lists are rebuilt element
    by element, every other value is copied. *)
Fixpoint asdict_inner (v : pyval) : pyval :=
  match v with
  | PList l => PList (List.map asdict_inner l)
  | _ => v
  end.

(** [dataclasses.asdict(self)]: one entry per declared field, read from the
    instance; [None] stands for the [AttributeError] of a missing attribute. *)
Fixpoint asdict_fields (names : list string) (vals : kwargs) : option kwargs :=
  match names with
  | [] => Some ∅
  | n :: names' =>
      match vals !! n, asdict_fields names' vals with
      | Some v, Some d => Some (<[n := asdict_inner v]> d)
      | _, _ => None
      end
  end.

Definition serialize (self : Action) : exn + kwargs :=
  match asdict_fields (field_names (act_cls self)) (act_vals self) with
  | Some d => inr d
  | None => inl AttributeError
  end.

(** The generated [__init__] called as [cls] applied to the keywords [data]: an unexpected keyword
    or a missing field without default is a [TypeError]. *)
Fixpoint init_fields (fields : list (string * option pyval)) (data : kwargs)
  : option kwargs :=
  match fields with
  | [] => Some ∅
  | (n, default) :: fields' =>
      match (match data !! n with Some v => Some v | None => default end),
            init_fields fields' data with
      | Some v, Some d => Some (<[n := v]> d)
      | _, _ => None
      end
  end.

Definition construct (cls : ActionClass) (data : kwargs) : exn + Action :=
  if bool_decide (map_Forall (fun k _ => k ∈ field_names cls) data) then
    match init_fields (cls_fields cls) data with
    | Some vals => inr (mkAction cls vals)
    | None => inl TypeError
    end
  else inl TypeError.

Definition deserialize (cls : ActionClass) (data : kwargs) : exn + Action :=
  if bool_decide (map_Forall (fun field_name _ => field_name ∈ field_names cls) data)
  then construct cls data
  else inl AssertionError.

(** An instance carries a value for each declared field of its class, and
    no other attribute. *)
Definition instance_ok (a : Action) : Prop :=
  dom (act_vals a) =@{gset string} list_to_set (field_names (act_cls a)).

(** [ActionHandle]. *)
Record ActionHandle := mkActionHandle { action_id : Z }.

(** [Action.schedule(self, time)]: the serialized fields are passed as
    keywords next to the parameters [action_type] and [time]. *)
Definition schedule (cur_session : bool) (self : Action) (time : Z) : M ActionHandle :=
  let* data := lift (serialize self) in
  if bool_decide (clashes ["action_type"; "time"] data)
  then raise TypeError
  else
    let* id := raw_schedule_action cur_session (get_name (act_cls self)) time data in
    ret (mkActionHandle id).

Definition ActionHandle_cancel (cur_session : bool) (self : ActionHandle) : M unit :=
  raw_cancel_action cur_session (action_id self).

Definition get_action (cur_session : bool) (self : ActionHandle) : M ScheduledAction :=
  let* action := get_scheduled_action cur_session (action_id self) in
  match action with
  | None => raise ValueError
  | Some action => ret action
  end.

Definition is_done (cur_session : bool) (self : ActionHandle) : M bool :=
  let* action := get_action cur_session self in
  ret (sa_done action).

(** *** The execution wrapper

    What a registered handler does when called is a parameter here: the
    method [run] of the typed actions, and the body of the functions
    registered through [raw_action_handler]. *)
Section Execution.

Variable run_method : Action -> Z -> M unit.
Variable call_raw : string -> Z -> kwargs -> M unit.

(** [handler(dt, **kwargs)]. For a typed action the handler is
    [do_handle], that is [cls.deserialize(kwargs).run(dt)]. *)
Definition call_handler (handler : Handler) (dt : Z) (kw : kwargs) : M unit :=
  match handler with
  | DoHandle cls =>
      if bool_decide (clashes ["dt"] kw) then raise TypeError
      else
        let* self := lift (deserialize cls kw) in
        run_method self dt
  | RawHandler func => call_raw func dt kw
  end.

Definition _perform_action (action_id : Z) (action_type : string) (dt : Z)
    (kw : kwargs) : M unit := fun s =>
  match handlers s !! action_type with
  | None =>
      logging LError no_handler_msg s
  | Some handler =>
      (call_handler handler dt kw >>
       session false false (fun cur =>
         let* action := get_scheduled_action cur action_id in
         match action with
         | Some _ => set_done action_id
         | None => ret tt
         end)) s
  end.

(** [_scheduled_action_task] from the point where [wait_until(dt)] has
    returned: the coroutine itself never raises. *)
Definition _scheduled_action_task (action_id : Z) (action_type : string) (dt : Z)
    (kw : kwargs) : State -> State := fun s =>
  match _perform_action action_id action_type dt kw s with
  | Ok _ s' => s'
  | Raise CancelledError s' => s'
  | Raise _ s' =>
      set_log (fun l => (l ++ [(LException, task_exception_msg)])%list) s'
  end.

Definition finish_task (task : nat) (s : State) : State :=
  set_loop_tasks (fun l =>
    match l !! task with
    | Some t =>
        <[task := mkTask (task_action_id t) (task_action_type t) (task_dt t)
                         (task_kwargs t) TaskFinished]> l
    | None => l
    end) s.

(** One turn of the event loop on a task at instant [now]. A pending task
    whose wait is over runs its coroutine to the end; a task that is still
    waiting, has finished or was cancelled does nothing. The wait of a
    task that started at [start <= now] ends at [wait_until dt start],
    which is at most [now] exactly when [dt <= now]. *)
Definition run_task (task : nat) (now : Z) (s : State) : State :=
  match loop_tasks s !! task with
  | Some t =>
      match task_status t with
      | TaskPending =>
          if bool_decide (task_dt t <= now) then
            finish_task task
              (_scheduled_action_task (task_action_id t) (task_action_type t)
                 (task_dt t) (task_kwargs t) s)
          else s
      | _ => s
      end
  | None => s
  end.

End Execution.

(** ** app/common: constants *)

Definition day : Z := 86400 * 1000000.

Definition AUTO_KICK_PERIOD : Z := 30 * day.
Definition CHARGE_RETRY_PERIOD : Z := 1 * day.
Definition CHARGE_RETRIES_COUNT : Z := 2.

Module ExtraData.
Definition FAILED_RECURRENT_RECOVERED : string := "failed_recurrent_recovered".
Definition ADVANCED_SERVICE_STATE : string := "advance_service_state".
End ExtraData.

Module AdvanceServiceState.
Definition UNUSED : pyval := PInt 1.
Definition IN_PROGRESS : pyval := PInt 2.
Definition NOTIFIED : pyval := PInt 3.
End AdvanceServiceState.

(** ** app/common/billing_actions.py *)

Module BillingActions.
Definition RecurrentPayment : string := "recurrent_payment".
Definition RecurrentPaymentRetry : string := "recurrent_payment_retry".
Definition KickInactive : string := "pishov_nahui".
Definition ExtraPlanPaymentRetry : string := "extra_plan_payment_retry".
Definition ExtraPlanReset : string := "extra_plan_reset".
End BillingActions.

Definition RecurrentPaymentAction : ActionClass :=
  mkActionClass "RecurrentPaymentAction" BillingActions.RecurrentPayment
    [("user_id", None); ("retries_left", None)].

Definition ExtraPlanPaymentRetryAction : ActionClass :=
  mkActionClass "ExtraPlanPaymentRetryAction" BillingActions.ExtraPlanPaymentRetry
    [("user_id", None); ("retries_left", None); ("deadline", None)].

Definition ExtraPlanResetAction : ActionClass :=
  mkActionClass "ExtraPlanResetAction" BillingActions.ExtraPlanReset
    [("user_id", None)].

Definition KickInactiveAction : ActionClass :=
  mkActionClass "KickInactiveAction" BillingActions.KickInactive
    [("user_id", None)].

(** What lies outside the program: the answer of the payment gateway to
    [cp_methods.charge], the date returned by [common.activate_plan], the
    fate of the Telegram notification ([None]: delivered), and the bodies of
    the handlers that are not embedded below. *)
Inductive charge_outcome :=
| Charged (transaction_id : Z)
| ChargeRaises (e : exn).

Record World := mkWorld {
  w_charge : charge_outcome;
  w_activate_plan : Z;
  w_tg : option exn;
  w_run_other : Action -> Z -> M unit;
  w_raw_other : string -> Z -> kwargs -> M unit;
}.

Definition getattr (self : Action) (name : string) : M pyval :=
  match act_vals self !! name with
  | Some v => ret v
  | None => raise AttributeError
  end.

Definition setattr (self : Action) (name : string) (v : pyval) : Action :=
  mkAction (act_cls self) (<[name := v]> (act_vals self)).

(** The integer an object stands for in [x > 0] and [x - 1]. *)
Definition as_int (v : pyval) : exn + Z :=
  match v with
  | PInt z => inr z
  | PBool b => inr (if b then 1 else 0)
  | _ => inl TypeError
  end.

(** [try: body  except E: handler], with [E] the exceptions on which
    [handler] is defined. *)
Definition try_except {A} (body : M A) (handler : exn -> option (M A)) : M A := fun s =>
  match body s with
  | Ok a s' => Ok a s'
  | Raise e s' =>
      match handler e with
      | Some h => h s'
      | None => Raise e s'
      end
  end.

(** [user.extra_data = user.extra_data | {key: v}] on the user [uid]. *)
Definition update_extra_data (uid : Z) (key : string) (v : pyval) : M unit := fun s =>
  Ok tt (set_users (alter (fun u =>
           mkUser (telegram_id u) (subscription u) (payment_token u)
                  (<[key := v]> (extra_data u))) uid) s).

(** [cp_methods.charge(user, plan, reason)]. *)
Definition charge (w : World) (cur_session : bool) (user : User) : M Z :=
  require_session cur_session >>
  match payment_token user with
  | None => raise AssertionError
  | Some _ =>
      match w_charge w with
      | Charged tx => ret tx
      | ChargeRaises e => raise e
      end
  end.

(** The closing block of the two payment actions: tell the user, and only
    log when Telegram answers [BadRequest]. *)
Definition notify_payment (w : World) (telegram_id : option string) : M unit :=
  match telegram_id with
  | None => ret tt
  | Some _ =>
      match w_tg w with
      | None => ret tt
      | Some BadRequest => logging LError "Failed to inform user of payment status"
      | Some e => raise e
      end
  end.

(** [RecurrentPaymentAction.run]: the body of its [try], the body of its
    [except CpPaymentError], and the method. *)
Definition RecurrentPaymentAction_try (w : World) (cur : bool) (self : Action)
    (uid : Z) (user : User) : M unit :=
  let* tx := charge w cur user in
  let next_active_plan_start := w_activate_plan w in
  let self := setattr self "retries_left" (PInt CHARGE_RETRIES_COUNT) in
  schedule cur self next_active_plan_start >>
  update_extra_data uid ExtraData.FAILED_RECURRENT_RECOVERED (PBool true).

Definition RecurrentPaymentAction_except (cur : bool) (self : Action) (dt : Z)
    (uid : Z) : M unit :=
  let* retries_left := getattr self "retries_left" in
  let* n := lift (as_int retries_left) in
  (if 0 <? n then
     let self := setattr self "retries_left" (PInt (n - 1)) in
     schedule cur self (dt + CHARGE_RETRY_PERIOD) >> ret tt
   else
     let* self_user_id := getattr self "user_id" in
     schedule cur (mkAction KickInactiveAction (<["user_id" := self_user_id]> ∅))
       (dt + AUTO_KICK_PERIOD) >> ret tt) >>
  update_extra_data uid ExtraData.FAILED_RECURRENT_RECOVERED (PBool false).

Definition RecurrentPaymentAction_run (w : World) (self : Action) (dt : Z) : M unit :=
  let* told :=
    session false false (fun cur =>
      let* self_user_id := getattr self "user_id" in
      let* user := find_user cur self_user_id in
      match user with
      | None => logging LWarning "User not found" >> ret None
      | Some (uid, user) =>
          match subscription user with
          | None =>
              logging LWarning "No plan (subscription) -- cannot make recurrent payment" >>
              ret None
          | Some plan =>
              match plan_price plan with
              | None | Some 0 => raise AssertionError
              | Some _ =>
                  try_except
                    (RecurrentPaymentAction_try w cur self uid user)
                    (fun e =>
                       match e with
                       | CpPaymentError =>
                           Some (RecurrentPaymentAction_except cur self dt uid)
                       | _ => None
                       end) >>
                  ret (Some (telegram_id user))
              end
          end
      end) in
  match told with
  | None => ret tt
  | Some telegram_id => notify_payment w telegram_id
  end.

(** [_deprecated_retry_rec_payment_handler(dt, *, user_id, retries_left)]. *)
Definition _deprecated_retry_rec_payment_handler (w : World) (dt : Z) (kw : kwargs)
  : M unit :=
  match kw !! "user_id", kw !! "retries_left" with
  | Some user_id, Some retries_left =>
      if bool_decide (map_Forall (fun k _ => k ∈ ["user_id"; "retries_left"]) kw) then
        logging LWarning "Deprecated action used" >>
        RecurrentPaymentAction_run w
          (mkAction RecurrentPaymentAction
             (<["user_id" := user_id]> (<["retries_left" := retries_left]> ∅))) dt
      else raise TypeError
  | _, _ => raise TypeError
  end.

Definition ExtraPlanResetAction_run (self : Action) (dt : Z) : M unit :=
  session false false (fun cur =>
    let* self_user_id := getattr self "user_id" in
    let* user := find_user cur self_user_id in
    match user with
    | None => logging LWarning "User not found"
    | Some (uid, _) =>
        logging LInfo "Extra plan payment expired" >>
        update_extra_data uid ExtraData.ADVANCED_SERVICE_STATE AdvanceServiceState.UNUSED
    end).

(** The method [run] an instance resolves to, by its class. *)
Definition billing_run (w : World) (self : Action) (dt : Z) : M unit :=
  if String.eqb (cls_qualname (act_cls self)) "RecurrentPaymentAction" then
    RecurrentPaymentAction_run w self dt
  else if String.eqb (cls_qualname (act_cls self)) "ExtraPlanResetAction" then
    ExtraPlanResetAction_run self dt
  else w_run_other w self dt.

Definition billing_raw (w : World) (func : string) (dt : Z) (kw : kwargs) : M unit :=
  if String.eqb func "_deprecated_retry_rec_payment_handler" then
    _deprecated_retry_rec_payment_handler w dt kw
  else w_raw_other w func dt kw.

Definition cancel_all (cur_session : bool) (found : list (Z * ScheduledAction)) : M unit :=
  for_each found (fun billing_action => raw_cancel_action cur_session billing_action.1).

Definition cancel_billing_punishment (cur_session : bool) (user_id : Z) : M unit :=
  session true cur_session (fun cur =>
    let* billing_punishments :=
      find_scheduled_actions cur (Some user_id) (Some false)
        (Some [BillingActions.KickInactive;
               BillingActions.RecurrentPaymentRetry;
               BillingActions.ExtraPlanPaymentRetry]) in
    cancel_all cur billing_punishments).

Definition cancel_extra_punishments (cur_session : bool) (user_id : Z) : M unit :=
  session true cur_session (fun cur =>
    let* billing_actions :=
      find_scheduled_actions cur (Some user_id) (Some false)
        (Some [BillingActions.ExtraPlanPaymentRetry]) in
    cancel_all cur billing_actions).

Definition cancel_billing_actions (cur_session : bool) (user_id : Z) : M unit :=
  session true cur_session (fun cur =>
    let* billing_actions :=
      find_scheduled_actions cur (Some user_id) (Some false)
        (Some [BillingActions.KickInactive;
               BillingActions.RecurrentPayment;
               BillingActions.RecurrentPaymentRetry;
               BillingActions.ExtraPlanPaymentRetry]) in
    cancel_all cur billing_actions).

(** The module body of billing_actions.py, top to bottom: four class
    statements and one decorated function. *)
Definition import_billing_actions : M unit :=
  init_subclass RecurrentPaymentAction >>
  raw_action_handler BillingActions.RecurrentPaymentRetry
    "_deprecated_retry_rec_payment_handler" >>
  init_subclass ExtraPlanPaymentRetryAction >>
  init_subclass ExtraPlanResetAction >>
  init_subclass KickInactiveAction.

(** ** Consecutive payment failures

    The recurrent payment whose keywords are [kw] fires at [dt] through its
    registered handler [do_handle]; when it has scheduled a successor of its
    own type, the successor fires at the time and with the keywords of its
    row, in the next world of [ws]. *)
Definition rp_args (user_id retries_left : Z) : kwargs :=
  <["user_id" := PInt user_id]> (<["retries_left" := PInt retries_left]> ∅).

Definition kick_args (user_id : Z) : kwargs :=
  <["user_id" := PInt user_id]> ∅.

Fixpoint consecutive_runs (ws : list World) (dt : Z) (kw : kwargs) (s : State) : State :=
  match ws with
  | [] => s
  | w :: ws' =>
      let id := action_id_seq s in
      let s' := state_of (call_handler (billing_run w) (billing_raw w)
                            (DoHandle RecurrentPaymentAction) dt kw s) in
      match actions s' !! id with
      | Some row =>
          if String.eqb (sa_type row) BillingActions.RecurrentPayment
          then consecutive_runs ws' (sa_time row) (sa_args row) s'
          else s'
      | None => s'
      end
  end.

(** ** The cancelled-reset scenario

    An [ExtraPlanResetAction] for [user_id] is scheduled for [time], then
    [cancel_extra_punishments(user_id)] is called, then the loop reaches
    [now] and gives the task of the action its turn. *)
Definition reset_action (user_id : Z) : Action :=
  mkAction ExtraPlanResetAction (<["user_id" := PInt user_id]> ∅).

Definition advance_service_state (user_id : Z) (s : State) : option pyval :=
  users s !! user_id ≫= fun u => extra_data u !! ExtraData.ADVANCED_SERVICE_STATE.

Definition schedule_cancel_wait (w : World) (user_id time now : Z) (s : State)
  : State * State :=
  let id := action_id_seq s in
  let s1 := state_of (schedule true (reset_action user_id) time s) in
  let s2 := state_of (cancel_extra_punishments true user_id s1) in
  match scheduled_tasks s1 !! id with
  | Some task => (s2, run_task (billing_run w) (billing_raw w) task now s2)
  | None => (s2, s2)
  end.

(** The scenario as the specification tells it: the marker after the wait is
    the marker before it, and the row is done. *)
Definition reset_never_runs (w : World) (user_id time now : Z) (s : State) : Prop :=
  let id := action_id_seq s in
  let '(s2, s3) := schedule_cancel_wait w user_id time now s in
  advance_service_state user_id s3 = advance_service_state user_id s2
  ∧ sa_done <$> actions s3 !! id = Some true.

(** ** Concrete states and worlds used to exercise the statements *)

Definition quiet_world (c : charge_outcome) : World :=
  mkWorld c 0 None (fun _ _ => ret tt) (fun _ _ _ => ret tt).

Definition declined : World := quiet_world (ChargeRaises CpPaymentError).

Definition empty_state : State := mkState ∅ 1 ∅ ∅ [] ∅ [].

(** The process after [import app.common.billing_actions]. *)
Definition booted : State := state_of (import_billing_actions empty_state).

Definition user7 : User :=
  mkUser (Some "7007") (Some (mkPlan 1 (Some 500))) (Some "tk_7")
         (<[ExtraData.ADVANCED_SERVICE_STATE := AdvanceServiceState.NOTIFIED]> ∅).

Definition with_user7 : State := set_users <[7 := user7]> booted.

(** [with_user7] after [ExtraPlanResetAction(7).schedule(1000)]. *)
Definition reset_scheduled : State :=
  state_of (schedule true (reset_action 7) 1000 with_user7).

(** A table with one overdue row and one row that is done. *)
Definition after_restart : State :=
  mkState (<[4 := mkScheduledAction (Some 7) 50 false BillingActions.ExtraPlanReset
                    (<["user_id" := PInt 7]> ∅)]>
           (<[3 := mkScheduledAction (Some 7) 10 true BillingActions.KickInactive
                     (<["user_id" := PInt 7]> ∅)]> ∅))
          5 (<[7 := user7]> ∅) (handlers booted) [] ∅ [].

(** ** States and predicates the statements below speak of *)

(** The state after a row for [uid] has been inserted, armed and indexed. *)
Definition scheduled (ty : string) (time : Z) (uid : Z) (kw : kwargs) (s : State) : State :=
  set_scheduled_tasks <[action_id_seq s := length (loop_tasks s)]>
    (set_loop_tasks
       (fun l => (l ++ [mkTask (action_id_seq s) ty time kw TaskPending])%list)
       (set_actions <[action_id_seq s := mkScheduledAction (Some uid) time false ty kw]>
          (set_action_id_seq Z.succ s))).

(** [ExtraPlanResetAction.run] on a user that exists. *)
Definition reset_done (uid : Z) (s : State) : State :=
  set_users (alter (fun u =>
      mkUser (telegram_id u) (subscription u) (payment_token u)
        (<[ExtraData.ADVANCED_SERVICE_STATE := AdvanceServiceState.UNUSED]>
           (extra_data u))) uid)
    (set_log (fun l => (l ++ [(LInfo, "Extra plan payment expired")])%list) s).

(** The row [id] is indexed by [task], and by no other id. *)
Definition owns (id : Z) (task : nat) (s : State) : Prop :=
  scheduled_tasks s !! id = Some task
  /\ forall j, j <> id -> scheduled_tasks s !! j <> Some task.

(** From [s] to [s'] the users, the handlers, the row [id] and the task
    [task] are the same. *)
Definition spared (id : Z) (task : nat) (s s' : State) : Prop :=
  users s' = users s
  /\ handlers s' = handlers s
  /\ actions s' !! id = actions s !! id
  /\ loop_tasks s' !! task = loop_tasks s !! task.

(** The user [uid] after [FAILED_RECURRENT_RECOVERED] has been set to [b]. *)
Definition recovered (uid : Z) (b : bool) (s : State) : State :=
  set_users (alter (fun u =>
      mkUser (telegram_id u) (subscription u) (payment_token u)
        (<[ExtraData.FAILED_RECURRENT_RECOVERED := PBool b]> (extra_data u))) uid) s.

(** A user the gateway can be asked to charge. *)
Definition chargeable (u : User) : Prop :=
  is_Some (payment_token u)
  /\ exists plan price,
       subscription u = Some plan /\ plan_price plan = Some price /\ price <> 0.

(** The row a declined charge leaves behind: a retry one period later while
    retries are left, the kick otherwise. *)
Definition successor (uid dt n : Z) : ScheduledAction :=
  if 0 <? n then
    mkScheduledAction (Some uid) (dt + CHARGE_RETRY_PERIOD) false
      BillingActions.RecurrentPayment (rp_args uid (n - 1))
  else
    mkScheduledAction (Some uid) (dt + AUTO_KICK_PERIOD) false
      BillingActions.KickInactive (kick_args uid).

(** * Typed actions: serialization *)

(** Membership in [n :: names] against membership in [names]. *)
Ltac cons_member :=
  match goal with
  | H : _ ∈ _ :: _ |- _ => apply elem_of_cons in H as [? | ?]; done
  | H : _ ∉ _ :: _ |- _ => apply H; by right
  end.

Section Serialization.

Implicit Types (cls : ActionClass) (data vals : kwargs) (a : Action).

Lemma asdict_inner_id : forall v, asdict_inner v = v.
Proof.
  fix IH 1. intros [ | b | z | str | l]; simpl; try reflexivity.
  f_equal. induction l as [ | v l IHl]; simpl; [reflexivity | ].
  rewrite IH, IHl. reflexivity.
Qed.

(** [asdict] reads every declared field: it succeeds on an instance that
    has them all, and returns exactly those entries. *)
Lemma asdict_fields_spec names vals :
  (forall n, n ∈ names -> is_Some (vals !! n)) ->
  exists d, asdict_fields names vals = Some d
    /\ forall k, d !! k = if bool_decide (k ∈ names) then vals !! k else None.
Proof.
  induction names as [ | n names IH]; intros Hall; cbn [asdict_fields].
  - exists ∅. split; [reflexivity | ]. intros k.
    rewrite lookup_empty. case_bool_decide as Hk; [ | reflexivity].
    by apply not_elem_of_nil in Hk.
  - destruct (Hall n) as [v Hv]; [left | ].
    destruct IH as (d & -> & Hd); [intros; apply Hall; by right | ].
    rewrite Hv. eexists; split; [reflexivity | ]. intros k.
    rewrite asdict_inner_id, lookup_insert. case_decide as Hk.
    + subst k. rewrite bool_decide_eq_true_2; [done | left].
    + rewrite Hd. do 2 case_bool_decide; try done; exfalso; cons_member.
Qed.

Lemma init_fields_spec fields data :
  (forall n, n ∈ fields.*1 -> is_Some (data !! n)) ->
  exists d, init_fields fields data = Some d
    /\ forall k, d !! k = if bool_decide (k ∈ fields.*1) then data !! k else None.
Proof.
  induction fields as [ | [n default] fields IH]; intros Hall;
    cbn [init_fields].
  - exists ∅. split; [reflexivity | ]. intros k.
    rewrite lookup_empty. case_bool_decide as Hk; [ | reflexivity].
    by apply not_elem_of_nil in Hk.
  - rewrite fmap_cons in Hall. cbn [fst] in Hall.
    destruct (Hall n) as [v Hv]; [left | ].
    destruct IH as (d & -> & Hd); [intros; apply Hall; by right | ].
    rewrite Hv. eexists; split; [reflexivity | ]. intros k.
    rewrite fmap_cons. cbn [fst].
    rewrite lookup_insert. case_decide as Hk.
    + subst k. rewrite bool_decide_eq_true_2; [done | left].
    + rewrite Hd. do 2 case_bool_decide; try done; exfalso; cons_member.
Qed.

Lemma restrict_to_dom names vals (d : kwargs) :
  dom vals = list_to_set names ->
  (forall k, d !! k = if bool_decide (k ∈ names) then vals !! k else None) ->
  d = vals.
Proof.
  intros Hdom Hd. apply map_eq. intros k. rewrite Hd.
  case_bool_decide as Hk; [reflexivity | ].
  symmetry. apply not_elem_of_dom. rewrite Hdom, elem_of_list_to_set. exact Hk.
Qed.

End Serialization.

(** C8. Serializing a typed action gives a mapping with exactly the declared
    fields, and deserializing that mapping in the class of the action gives
    the action back. *)
Theorem deserialize_serialize (a : Action) :
  instance_ok a ->
  exists data,
    serialize a = inr data
    /\ dom data =@{gset string} list_to_set (field_names (act_cls a))
    /\ deserialize (act_cls a) data = inr a.
Proof.
  destruct a as [cls vals]. unfold instance_ok. simpl. intros Hdom.
  assert (Hall : forall n, n ∈ field_names cls -> is_Some (vals !! n)).
  { intros n Hn. apply elem_of_dom. rewrite Hdom, elem_of_list_to_set. exact Hn. }
  destruct (asdict_fields_spec _ _ Hall) as (d & Hd & Hlk).
  pose proof (restrict_to_dom _ _ _ Hdom Hlk) as ->.
  exists vals. unfold serialize, deserialize, construct. simpl. rewrite Hd.
  split; [reflexivity | ]. split; [exact Hdom | ].
  assert (Hkeys : map_Forall (fun k _ => k ∈ field_names cls) vals).
  { intros k v Hk. assert (k ∈ dom vals) as Hin by (apply elem_of_dom; eauto).
    rewrite Hdom, elem_of_list_to_set in Hin. exact Hin. }
  rewrite !bool_decide_eq_true_2 by exact Hkeys.
  destruct (init_fields_spec (cls_fields cls) vals Hall) as (d' & -> & Hlk').
  rewrite (restrict_to_dom _ _ _ Hdom Hlk'). reflexivity.
Qed.

Lemma deserialize_serialize_witness :
  instance_ok (mkAction RecurrentPaymentAction (rp_args 7 2))
  /\ exists data,
       serialize (mkAction RecurrentPaymentAction (rp_args 7 2)) = inr data
       /\ dom data =@{gset string} list_to_set (field_names RecurrentPaymentAction)
       /\ deserialize RecurrentPaymentAction data
          = inr (mkAction RecurrentPaymentAction (rp_args 7 2)).
Proof.
  assert (Hok : instance_ok (mkAction RecurrentPaymentAction (rp_args 7 2)))
    by (vm_compute; reflexivity).
  split; [exact Hok | ].
  exact (deserialize_serialize _ Hok).
Defined.

(** C10. A mapping with a key that is not a declared field of the class is
    refused by [deserialize] with an assertion error; an instance comes out
    only of a mapping whose keys are all declared fields. *)
Theorem deserialize_unknown_field (cls : ActionClass) (data : kwargs) :
  ((exists k, is_Some (data !! k) /\ k ∉ field_names cls) ->
   deserialize cls data = inl AssertionError)
  /\ (forall a, deserialize cls data = inr a ->
      forall k, is_Some (data !! k) -> k ∈ field_names cls).
Proof.
  unfold deserialize. split.
  - intros (k & [v Hv] & Hk). rewrite bool_decide_eq_false_2; [reflexivity | ].
    intros Hall. apply Hk. exact (Hall k v Hv).
  - intros a. case_bool_decide as Hall; [ | discriminate].
    intros _ k [v Hv]. exact (Hall k v Hv).
Qed.

Lemma deserialize_unknown_field_witness :
  deserialize RecurrentPaymentAction (<["attempt" := PInt 1]> (rp_args 7 2))
  = inl AssertionError.
Proof.
  apply (proj1 (deserialize_unknown_field RecurrentPaymentAction
                  (<["attempt" := PInt 1]> (rp_args 7 2)))).
  exists "attempt". split.
  - vm_compute. eauto.
  - vm_compute. intros H. repeat (inversion H as [ | ? ? ? H']; clear H; rename H' into H; subst).
Defined.

(** * Handles *)

(** C9. Inside a database session, [get_action] and [is_done] raise
    [ValueError] when the store has no row for the handle, and return the
    row, respectively its flag [done], when it has one; in no context does
    [is_done] return a boolean for a missing row. *)
Theorem is_done_missing_action (self : ActionHandle) (s : State) :
  (actions s !! action_id self = None ->
     get_action true self s = Raise ValueError s
     /\ is_done true self s = Raise ValueError s)
  /\ (forall a, actions s !! action_id self = Some a ->
     get_action true self s = Ok a s
     /\ is_done true self s = Ok (sa_done a) s)
  /\ (forall cur b s', is_done cur self s = Ok b s' ->
     exists a, actions s !! action_id self = Some a /\ b = sa_done a).
Proof.
  unfold is_done, get_action, get_scheduled_action, require_session, bind, ret, raise.
  split; [ | split].
  - intros ->. split; reflexivity.
  - intros a ->. split; reflexivity.
  - intros [ | ] b s'; [ | discriminate].
    destruct (actions s !! action_id self) as [a | ]; [ | discriminate].
    intros [= <- <-]. eauto.
Qed.

Lemma is_done_missing_action_witness :
  is_done true (mkActionHandle 9) reset_scheduled = Raise ValueError reset_scheduled
  /\ is_done true (mkActionHandle 1) reset_scheduled = Ok false reset_scheduled.
Proof.
  split.
  - apply (proj1 (is_done_missing_action (mkActionHandle 9) reset_scheduled)).
    vm_compute. reflexivity.
  - refine (proj2 (proj1 (proj2 (is_done_missing_action (mkActionHandle 1)
                                    reset_scheduled))
                      (mkScheduledAction (Some 7) 1000 false
                         BillingActions.ExtraPlanReset (<["user_id" := PInt 7]> ∅)) _)).
    vm_compute. reflexivity.
Defined.

(** * The registry *)

(** A class statement whose [action_name] is taken raises and registers
    nothing. *)
Lemma init_subclass_duplicate (cls : ActionClass) (s : State) :
  is_Some (handlers s !! cls_action_name cls) ->
  init_subclass cls s = Raise ValueError s.
Proof. intros [h Hh]. unfold init_subclass. by rewrite Hh. Qed.

(** The decorator never looks at what is registered. *)
Lemma raw_action_handler_returns (action_type func : string) (s : State) :
  raw_action_handler action_type func s
  = Ok tt (set_handlers <[action_type := RawHandler func]> s).
Proof. reflexivity. Qed.

(** C6. After the billing actions are imported, decorating a function with
    [raw_action_handler] under the name of the typed action
    [RecurrentPaymentAction], or under the name already given to the
    deprecated retry handler, returns normally and the new function takes
    the place of the registered handler; the same name in a class statement
    raises. *)
Theorem raw_action_handler_replaces :
  handlers booted !! BillingActions.RecurrentPayment
    = Some (DoHandle RecurrentPaymentAction)
  /\ (exists s',
        raw_action_handler BillingActions.RecurrentPayment "late_handler" booted
          = Ok tt s'
        /\ handlers s' !! BillingActions.RecurrentPayment
           = Some (RawHandler "late_handler"))
  /\ handlers booted !! BillingActions.RecurrentPaymentRetry
    = Some (RawHandler "_deprecated_retry_rec_payment_handler")
  /\ (exists s',
        raw_action_handler BillingActions.RecurrentPaymentRetry "late_handler" booted
          = Ok tt s'
        /\ handlers s' !! BillingActions.RecurrentPaymentRetry
           = Some (RawHandler "late_handler"))
  /\ init_subclass
       (mkActionClass "Late" BillingActions.RecurrentPaymentRetry []) booted
     = Raise ValueError booted.
Proof.
  split; [vm_compute; reflexivity | ].
  split; [eexists; split; [reflexivity | vm_compute; reflexivity] | ].
  split; [vm_compute; reflexivity | ].
  split; [eexists; split; [reflexivity | vm_compute; reflexivity] | ].
  apply init_subclass_duplicate. vm_compute. eauto.
Qed.

(** * Cancellation *)

Section Cancellation.

Implicit Types (s : State) (id : Z).

(** The table after a cancel: the row is marked when it was pending. *)
Lemma raw_cancel_action_table cur id s :
  exists s', raw_cancel_action cur id s = Ok tt s'
    /\ actions s' =
       match actions s !! id with
       | Some a => if sa_done a then actions s else alter mark_done id (actions s)
       | None => actions s
       end.
Proof.
  unfold raw_cancel_action, session, get_scheduled_action, require_session,
    bind, ret, logging, set_done, cancel_task.
  destruct (true && cur); simpl;
    (destruct (actions s !! id) as [a | ] eqn:Ha; simpl;
     [destruct (sa_done a) eqn:Hd; simpl;
      [ | destruct (scheduled_tasks s !! id) as [task | ]; simpl] | ]);
    eexists; (split; [reflexivity | ]); simpl; reflexivity.
Qed.

Lemma raw_cancel_action_keeps_done cur id s s' id' :
  raw_cancel_action cur id s = Ok tt s' ->
  done_flag id' s = Some true -> done_flag id' s' = Some true.
Proof.
  intros Hrun. destruct (raw_cancel_action_table cur id s) as (s1 & Hs1 & Htab).
  rewrite Hrun in Hs1. injection Hs1 as <-.
  unfold done_flag. rewrite Htab.
  destruct (actions s !! id) as [a | ] eqn:Ha; [ | done].
  destruct (sa_done a) eqn:Hd; [done | ].
  rewrite lookup_alter. case_decide as Hid; [ | done].
  subst id'. rewrite Ha. simpl. congruence.
Qed.

Lemma cancel_sequence cur (ids : list Z) s :
  exists s', for_each ids (raw_cancel_action cur) s = Ok tt s'
    /\ forall id', done_flag id' s = Some true -> done_flag id' s' = Some true.
Proof.
  revert s. induction ids as [ | id ids IH]; intros s; cbn [for_each].
  - exists s. split; [reflexivity | auto].
  - destruct (raw_cancel_action_table cur id s) as (s1 & Hs1 & _).
    destruct (IH s1) as (s2 & Hs2 & Hmono).
    exists s2. unfold bind. rewrite Hs1. split; [exact Hs2 | ].
    intros id' Hd. apply Hmono. eapply raw_cancel_action_keeps_done; eauto.
Qed.

End Cancellation.

(** C4. [raw_cancel_action] returns normally on every id and every state.
    On an id without row, and on a row that is done, it only logs a warning;
    on a pending row it sets [done]; and after any sequence of cancels every
    row that was done is still done. *)
Theorem raw_cancel_action_never_raises :
  (forall (cur : bool) (id : Z) (s : State),
     exists s', raw_cancel_action cur id s = Ok tt s'
       /\ (actions s !! id = None ->
           s' = warned "Tried to cancel action which doesn't exist" s)
       /\ (done_flag id s = Some true ->
           s' = warned "Tried to cancel action which is already done" s)
       /\ (done_flag id s = Some false -> done_flag id s' = Some true))
  /\ (forall (cur : bool) (ids : list Z) (s : State),
        exists s', for_each ids (raw_cancel_action cur) s = Ok tt s'
          /\ forall id', done_flag id' s = Some true -> done_flag id' s' = Some true).
Proof.
  split; [ | apply cancel_sequence].
  intros cur id s.
  destruct (raw_cancel_action_table cur id s) as (s' & Hrun & Htab).
  exists s'. split; [exact Hrun | ].
  revert Hrun Htab.
  unfold raw_cancel_action, session, get_scheduled_action, require_session,
    bind, ret, logging, set_done, cancel_task, done_flag, warned.
  destruct (true && cur); simpl;
    (destruct (actions s !! id) as [a | ] eqn:Ha; simpl;
     [destruct (sa_done a) eqn:Hd; simpl | ]);
    intros Hrun Htab; repeat split; try congruence; intros _;
    rewrite Htab, lookup_alter_eq, Ha; reflexivity.
Qed.

Lemma raw_cancel_action_never_raises_witness :
  done_flag 1 reset_scheduled = Some false
  /\ exists s1 s2,
       raw_cancel_action false 1 reset_scheduled = Ok tt s1
       /\ done_flag 1 s1 = Some true
       /\ raw_cancel_action false 1 s1 = Ok tt s2
       /\ s2 = warned "Tried to cancel action which is already done" s1
       /\ raw_cancel_action false 2 s2
          = Ok tt (warned "Tried to cancel action which doesn't exist" s2).
Proof.
  assert (H0 : done_flag 1 reset_scheduled = Some false) by (vm_compute; reflexivity).
  split; [exact H0 | ].
  destruct (proj1 raw_cancel_action_never_raises false 1 reset_scheduled)
    as (s1 & Hrun1 & _ & _ & Hpending).
  specialize (Hpending H0).
  destruct (proj1 raw_cancel_action_never_raises false 1 s1)
    as (s2 & Hrun2 & _ & Hdone & _).
  specialize (Hdone Hpending).
  destruct (proj1 raw_cancel_action_never_raises false 2 s2)
    as (s3 & Hrun3 & Hmissing & _ & _).
  exists s1, s2. repeat split; try assumption.
  rewrite Hrun3. f_equal. apply Hmissing.
  assert (Hs1 : s1 = state_of (raw_cancel_action false 1 reset_scheduled))
    by (rewrite Hrun1; reflexivity).
  rewrite Hdone, Hs1. vm_compute. reflexivity.
Defined.

(** * Sequencing *)

Lemma bind_ok {A B} (m : M A) (k : A -> M B) (s s1 : State) (a : A) :
  m s = Ok a s1 -> bind m k s = k a s1.
Proof. intros H. unfold bind. by rewrite H. Qed.

Lemma bind_raise {A B} (m : M A) (k : A -> M B) (s s1 : State) (e : exn) :
  m s = Raise e s1 -> bind m k s = Raise e s1.
Proof. intros H. unfold bind. by rewrite H. Qed.

(** * The execution wrapper *)

Section Wrapper.

Variable run_method : Action -> Z -> M unit.
Variable call_raw : string -> Z -> kwargs -> M unit.

Implicit Types (s : State) (id : Z) (ty : string) (dt : Z) (kw : kwargs).

(** The closing block of [_perform_action]: the row is marked when it is
  there, and the block cannot raise. *)
Lemma mark_done_block id s :
session false false (fun cur =>
  let* action := get_scheduled_action cur id in
  match action with
  | Some _ => set_done id
  | None => ret tt
  end) s
= Ok tt (match actions s !! id with
         | Some _ => set_actions (alter mark_done id) s
         | None => s
         end).
Proof.
unfold session, get_scheduled_action, require_session, bind, ret, set_done.
simpl. destruct (actions s !! id); reflexivity.
Qed.

Lemma perform_action_unknown id ty dt kw s :
handlers s !! ty = None ->
_scheduled_action_task run_method call_raw id ty dt kw s
= set_log (fun l => (l ++ [(LError, no_handler_msg)])%list) s.
Proof.
intros Hh. unfold _scheduled_action_task, _perform_action. rewrite Hh.
reflexivity.
Qed.

Lemma perform_action_raised id ty dt kw s h e s1 :
handlers s !! ty = Some h ->
call_handler run_method call_raw h dt kw s = Raise e s1 ->
_scheduled_action_task run_method call_raw id ty dt kw s
= match e with
  | CancelledError => s1
  | _ => set_log (fun l => (l ++ [(LException, task_exception_msg)])%list) s1
  end.
Proof.
intros Hh Hcall. unfold _scheduled_action_task, _perform_action.
rewrite Hh, (bind_raise _ _ _ _ _ Hcall). reflexivity.
Qed.

Lemma perform_action_returned id ty dt kw s h s1 :
handlers s !! ty = Some h ->
call_handler run_method call_raw h dt kw s = Ok tt s1 ->
_scheduled_action_task run_method call_raw id ty dt kw s
= match actions s1 !! id with
  | Some _ => set_actions (alter mark_done id) s1
  | None => s1
  end.
Proof.
intros Hh Hcall. unfold _scheduled_action_task, _perform_action.
rewrite Hh, (bind_ok _ _ _ _ _ Hcall), mark_done_block. reflexivity.
Qed.

(** The wrapper itself never touches the index [scheduled_tasks]: what the
  handler left there is what is there when the task ends. *)
Lemma wrapper_leaves_index id ty dt kw s h :
handlers s !! ty = Some h ->
scheduled_tasks (_scheduled_action_task run_method call_raw id ty dt kw s)
= scheduled_tasks (state_of (call_handler run_method call_raw h dt kw s)).
Proof.
intros Hh.
destruct (call_handler run_method call_raw h dt kw s) as [[] s1 | e s1] eqn:Hcall.
- rewrite (perform_action_returned _ _ _ _ _ _ _ Hh Hcall). simpl.
  destruct (actions s1 !! id); reflexivity.
- rewrite (perform_action_raised _ _ _ _ _ _ _ _ Hh Hcall). simpl.
  destruct e; reflexivity.
Qed.

(** C3. For a pending row whose flag the handler itself leaves alone, the
  row is done after the task has run exactly when a handler is registered
  for the type and its call returns. Without a handler the wrapper logs an
  error and changes nothing else; when the handler raises, the wrapper
  writes nothing to the table and logs the exception. *)
Theorem done_iff_handler_returns id ty dt kw s :
done_flag id s = Some false ->
(forall h, handlers s !! ty = Some h ->
   done_flag id (state_of (call_handler run_method call_raw h dt kw s))
   = Some false) ->
let s' := _scheduled_action_task run_method call_raw id ty dt kw s in
(done_flag id s' = Some true <->
   exists h s1, handlers s !! ty = Some h
     /\ call_handler run_method call_raw h dt kw s = Ok tt s1)
/\ (handlers s !! ty = None ->
    s' = set_log (fun l => (l ++ [(LError, no_handler_msg)])%list) s
    /\ done_flag id s' = Some false)
/\ (forall h e s1, handlers s !! ty = Some h ->
    call_handler run_method call_raw h dt kw s = Raise e s1 ->
    actions s' = actions s1
    /\ done_flag id s' = Some false
    /\ (e <> CancelledError ->
        log s' = (log s1 ++ [(LException, task_exception_msg)])%list)).
Proof.
intros Hpending Hframe s'. subst s'.
assert (Hunknown : handlers s !! ty = None ->
  _scheduled_action_task run_method call_raw id ty dt kw s
    = set_log (fun l => (l ++ [(LError, no_handler_msg)])%list) s
  /\ done_flag id (_scheduled_action_task run_method call_raw id ty dt kw s)
     = Some false).
{ intros Hh. rewrite (perform_action_unknown _ _ _ _ _ Hh).
  split; [reflexivity | exact Hpending]. }
assert (Hraised : forall h e s1, handlers s !! ty = Some h ->
  call_handler run_method call_raw h dt kw s = Raise e s1 ->
  actions (_scheduled_action_task run_method call_raw id ty dt kw s) = actions s1
  /\ done_flag id (_scheduled_action_task run_method call_raw id ty dt kw s)
     = Some false
  /\ (e <> CancelledError ->
      log (_scheduled_action_task run_method call_raw id ty dt kw s)
      = (log s1 ++ [(LException, task_exception_msg)])%list)).
{ intros h e s1 Hh Hcall. specialize (Hframe h Hh). rewrite Hcall in Hframe.
  simpl in Hframe. rewrite (perform_action_raised _ _ _ _ _ _ _ _ Hh Hcall).
  destruct e; (split; [reflexivity | split; [exact Hframe | ]]);
    intros Hne; try reflexivity; congruence. }
split; [ | split; assumption].
split.
- intros Hdone. destruct (handlers s !! ty) as [h | ] eqn:Hh.
  + destruct (call_handler run_method call_raw h dt kw s) as [[] s1 | e s1]
      eqn:Hcall; [eauto | ].
    destruct (Hraised h e s1 eq_refl Hcall) as (_ & Hstill & _). congruence.
  + destruct (Hunknown eq_refl) as [_ Hstill]. congruence.
- intros (h & s1 & Hh & Hcall). specialize (Hframe h Hh).
  rewrite Hcall in Hframe. simpl in Hframe.
  rewrite (perform_action_returned _ _ _ _ _ _ _ Hh Hcall).
  unfold done_flag in *.
  destruct (actions s1 !! id) as [a | ] eqn:Ha; [ | discriminate].
  simpl. rewrite lookup_alter_eq, Ha. reflexivity.
Qed.

End Wrapper.

Lemma done_iff_handler_returns_witness :
  done_flag 1 reset_scheduled = Some false
  /\ done_flag 1 (_scheduled_action_task (billing_run declined) (billing_raw declined)
                    1 BillingActions.ExtraPlanReset 1000 (kick_args 7) reset_scheduled)
     = Some true.
Proof.
  assert (H0 : done_flag 1 reset_scheduled = Some false) by (vm_compute; reflexivity).
  split; [exact H0 | ].
  refine (proj2 (proj1 (done_iff_handler_returns (billing_run declined)
                          (billing_raw declined) 1 BillingActions.ExtraPlanReset 1000
                          (kick_args 7) reset_scheduled H0 _)) _).
  - intros h Hh. vm_compute in Hh. injection Hh as <-. vm_compute. reflexivity.
  - exists (DoHandle ExtraPlanResetAction),
      (state_of (call_handler (billing_run declined) (billing_raw declined)
                   (DoHandle ExtraPlanResetAction) 1000 (kick_args 7) reset_scheduled)).
    split; vm_compute; reflexivity.
Defined.

(** * The index of tasks *)

(** C7. An action is scheduled, its time comes and its handler returns: the
    row is done and its task has finished, and the id is still a key of
    [scheduled_tasks]. A cancel of the same action removes the key. *)
Theorem completed_action_stays_indexed :
  let fired := run_task (billing_run declined) (billing_raw declined)
                 0 2000 reset_scheduled in
  let cancelled := state_of (raw_cancel_action false 1 reset_scheduled) in
  scheduled_tasks reset_scheduled !! 1 = Some 0%nat
  /\ done_flag 1 reset_scheduled = Some false
  /\ done_flag 1 fired = Some true
  /\ task_status <$> loop_tasks fired !! 0%nat = Some TaskFinished
  /\ scheduled_tasks fired !! 1 = Some 0%nat
  /\ done_flag 1 cancelled = Some true
  /\ scheduled_tasks cancelled !! 1 = None.
Proof. vm_compute. repeat split; reflexivity. Qed.

(** * The startup scan *)

Section Startup.

Implicit Types (s : State) (l : list (Z * ScheduledAction)) (r : Z * ScheduledAction).

Lemma fst_filter_subset (f : Z * ScheduledAction -> bool) l (id : Z) :
id ∈ (List.filter f l).*1 -> id ∈ l.*1.
Proof.
induction l as [ | r l IH]; cbn [List.filter]; [done | ].
destruct (f r); rewrite ?fmap_cons, ?elem_of_cons; intuition.
Qed.

Lemma NoDup_fst_filter (f : Z * ScheduledAction -> bool) l :
NoDup l.*1 -> NoDup (List.filter f l).*1.
Proof.
induction l as [ | r l IH]; cbn [List.filter]; [done | ].
rewrite fmap_cons. intros [Hr Hl]%NoDup_cons.
destruct (f r); [ | auto].
rewrite fmap_cons. apply NoDup_cons. split; [ | auto].
intros Hin. apply Hr. eapply fst_filter_subset, Hin.
Qed.

Lemma elem_of_pending (m : gmap Z ScheduledAction) (id : Z) (a : ScheduledAction) :
m !! id = Some a -> sa_done a = false ->
(id, a) ∈ List.filter (fun r => negb (sa_done r.2)) (map_to_list m).
Proof.
intros Hm Hd. apply list_elem_of_In, filter_In. split.
- apply list_elem_of_In, elem_of_map_to_list, Hm.
- simpl. by rewrite Hd.
Qed.

Lemma pending_elem_of (m : gmap Z ScheduledAction) r :
r ∈ List.filter (fun r => negb (sa_done r.2)) (map_to_list m) ->
m !! r.1 = Some r.2 /\ sa_done r.2 = false.
Proof.
intros [Hin Hd]%list_elem_of_In%filter_In. destruct r as [id a]. split.
- apply elem_of_map_to_list, list_elem_of_In, Hin.
- simpl in *. by destruct (sa_done a).
Qed.

Lemma arm_step r s :
~ clashes task_params (sa_args r.2) ->
arm r s = Ok tt (set_scheduled_tasks <[r.1 := length (loop_tasks s)]>
                   (set_loop_tasks (fun tasks => (tasks ++ [task_of r])%list) s)).
Proof.
intros Hok. unfold arm, create_scheduled_action_task, index_task, bind.
rewrite bool_decide_eq_false_2 by exact Hok. reflexivity.
Qed.

(** Arming the rows of [l] one after the other: the tasks are appended in
  the order of [l], each row is indexed by the place of its task, and the
  tables are not written. *)
Lemma arm_all l s :
Forall (fun r => ~ clashes task_params (sa_args r.2)) l ->
NoDup l.*1 ->
exists s', for_each l arm s = Ok tt s'
  /\ actions s' = actions s
  /\ loop_tasks s' = (loop_tasks s ++ (task_of <$> l))%list
  /\ (forall (i : nat) r, l !! i = Some r ->
      scheduled_tasks s' !! r.1 = Some (length (loop_tasks s) + i)%nat)
  /\ (forall id, id ∉ l.*1 -> scheduled_tasks s' !! id = scheduled_tasks s !! id).
Proof.
revert s. induction l as [ | r l IH]; intros s Hok Hnd; cbn [for_each].
- exists s. rewrite app_nil_r. repeat split; auto. intros i r; by rewrite lookup_nil.
- apply Forall_cons in Hok as [Hr Hok].
  rewrite fmap_cons in Hnd. apply NoDup_cons in Hnd as [Hfresh Hnd].
  rewrite (bind_ok _ _ _ _ _ (arm_step r s Hr)).
  destruct (IH (set_scheduled_tasks <[r.1 := length (loop_tasks s)]>
                  (set_loop_tasks (fun tasks => (tasks ++ [task_of r])%list) s))
               Hok Hnd) as (s' & Hrun & Hact & Htasks & Hidx & Hother).
  simpl in Hact, Htasks, Hidx, Hother.
  exists s'. split; [exact Hrun | ]. split; [exact Hact | ].
  split; [rewrite Htasks, <- app_assoc; reflexivity | ].
  split.
  + intros [ | i] r' Hi.
    * injection Hi as <-. rewrite (Hother _ Hfresh), lookup_insert_eq.
      f_equal. lia.
    * rewrite (Hidx i r' Hi), length_app. simpl. f_equal. lia.
  + intros id Hid. rewrite fmap_cons in Hid.
    apply not_elem_of_cons in Hid as [Hne Hid].
    rewrite (Hother _ Hid). apply lookup_insert_ne. congruence.
Qed.

Lemma run_startup s :
(forall id a, actions s !! id = Some a -> sa_done a = false ->
   ~ clashes task_params (sa_args a)) ->
exists s', run s = Ok tt s'
  /\ actions s' = actions s
  /\ forall id a, actions s !! id = Some a -> sa_done a = false ->
     exists task, scheduled_tasks s' !! id = Some task
       /\ loop_tasks s' !! task = Some (task_of (id, a)).
Proof.
intros Hok.
set (l := List.filter (fun r => negb (sa_done r.2)) (map_to_list (actions s))).
assert (Hl : Forall (fun r => ~ clashes task_params (sa_args r.2)) l).
{ apply Forall_forall. intros r [Hm Hd]%pending_elem_of. eapply Hok; eauto. }
assert (Hnd : NoDup l.*1) by apply NoDup_fst_filter, NoDup_fst_map_to_list.
destruct (arm_all l s Hl Hnd) as (s1 & Hrun & Hact & Htasks & Hidx & _).
exists (set_log (fun lg => (lg ++ [(LInfo, "Action scheduler initialized")])%list) s1).
split; [ | split; [exact Hact | ]].
- unfold run, session, _get_scheduled_actions, require_session, bind, ret, logging.
  simpl. fold l. rewrite Hrun. reflexivity.
- intros id a Hm Hd. simpl.
  pose proof (elem_of_pending _ _ _ Hm Hd) as Hin. fold l in Hin.
  apply list_elem_of_lookup in Hin as [i Hi].
  exists (length (loop_tasks s) + i)%nat. split; [exact (Hidx i _ Hi) | ].
  rewrite Htasks, lookup_app_r by lia.
  replace (length (loop_tasks s) + i - length (loop_tasks s))%nat with i by lia.
  rewrite list_lookup_fmap, Hi. reflexivity.
Qed.

End Startup.

(** C5. A row that is not done and whose time lies before the instant [now]
    is armed by the startup scan, provided no pending row carries an argument
    named like a parameter of the task coroutine; the wait its task asks for
    at [now] is negative, so [wait_until] resumes at [now] itself, and the
    turn the loop gives the task at [now] runs the wrapper for the row. *)
Theorem overdue_action_fires_at_once (s : State) (id : Z) (a : ScheduledAction) (now : Z) :
  actions s !! id = Some a -> sa_done a = false -> sa_time a < now ->
  (forall id' a', actions s !! id' = Some a' -> sa_done a' = false ->
     ~ clashes task_params (sa_args a')) ->
  exists s' task,
    run s = Ok tt s'
    /\ scheduled_tasks s' !! id = Some task
    /\ loop_tasks s' !! task
       = Some (mkTask id (sa_type a) (sa_time a) (sa_args a) TaskPending)
    /\ sa_time a - now < 0
    /\ wait_until (sa_time a) now = now
    /\ forall run_method call_raw,
         run_task run_method call_raw task now s'
         = finish_task task
             (_scheduled_action_task run_method call_raw id (sa_type a) (sa_time a)
                (sa_args a) s').
Proof.
  intros Hm Hd Hpast Hok.
  destruct (run_startup s Hok) as (s' & Hrun & _ & Harmed).
  destruct (Harmed id a Hm Hd) as (task & Hidx & Htask).
  exists s', task. split; [exact Hrun | ]. split; [exact Hidx | ].
  split; [exact Htask | ]. split; [lia | ]. split.
  - unfold wait_until, asyncio_sleep.
    destruct (sa_time a - now <=? 0) eqn:Hle; [reflexivity | ].
    apply Z.leb_gt in Hle. lia.
  - intros run_method call_raw. unfold run_task. rewrite Htask. simpl.
    rewrite bool_decide_eq_true_2 by lia. reflexivity.
Qed.

Lemma overdue_action_fires_at_once_witness :
  exists s' task,
    run after_restart = Ok tt s'
    /\ scheduled_tasks s' !! 4 = Some task
    /\ wait_until 50 2000 = 2000
    /\ done_flag 4 (run_task (billing_run declined) (billing_raw declined)
                      task 2000 s') = Some true.
Proof.
  destruct (overdue_action_fires_at_once after_restart 4
              (mkScheduledAction (Some 7) 50 false BillingActions.ExtraPlanReset
                 (<["user_id" := PInt 7]> ∅)) 2000)
    as (s' & task & Hrun & Hidx & Htask & _ & Hwait & Hfire).
  - vm_compute. reflexivity.
  - reflexivity.
  - simpl. lia.
  - change (map_Forall (fun _ a' => sa_done a' = false ->
                          ~ clashes task_params (sa_args a'))
              (actions after_restart)).
    apply (bool_decide_unpack _). vm_compute. exact I.
  - exists s', task. split; [exact Hrun | ]. split; [exact Hidx | ].
    split; [exact Hwait | ].
    assert (Hs' : s' = state_of (run after_restart)) by (rewrite Hrun; reflexivity).
    assert (Ht : task = 0%nat).
    { rewrite Hs' in Hidx. vm_compute in Hidx. congruence. }
    rewrite Hs', Ht. vm_compute. reflexivity.
Defined.

(** * Keyword mappings of the billing actions *)

Section Keywords.

Implicit Types (uid n : Z).

Lemma kick_args_user_id uid : kick_args uid !! "user_id" = Some (PInt uid).
Proof. apply lookup_insert_eq. Qed.

Lemma rp_args_user_id uid n : rp_args uid n !! "user_id" = Some (PInt uid).
Proof. apply lookup_insert_eq. Qed.

Lemma rp_args_retries_left uid n : rp_args uid n !! "retries_left" = Some (PInt n).
Proof. unfold rp_args. rewrite lookup_insert_ne by done. apply lookup_insert_eq. Qed.

Lemma kick_args_task_ok uid : bool_decide (clashes task_params (kick_args uid)) = false.
Proof. vm_compute. reflexivity. Qed.

Lemma kick_args_schedule_ok uid :
bool_decide (clashes ["action_type"; "time"] (kick_args uid)) = false.
Proof. vm_compute. reflexivity. Qed.

Lemma kick_args_handle_ok uid : bool_decide (clashes ["dt"] (kick_args uid)) = false.
Proof. vm_compute. reflexivity. Qed.

Lemma rp_args_task_ok uid n : bool_decide (clashes task_params (rp_args uid n)) = false.
Proof. vm_compute. reflexivity. Qed.

Lemma rp_args_schedule_ok uid n :
bool_decide (clashes ["action_type"; "time"] (rp_args uid n)) = false.
Proof. vm_compute. reflexivity. Qed.

Lemma rp_args_handle_ok uid n : bool_decide (clashes ["dt"] (rp_args uid n)) = false.
Proof. vm_compute. reflexivity. Qed.

Lemma serialize_reset uid : serialize (reset_action uid) = inr (kick_args uid).
Proof. vm_compute. reflexivity. Qed.

Lemma deserialize_reset uid :
deserialize ExtraPlanResetAction (kick_args uid) = inr (reset_action uid).
Proof. vm_compute. reflexivity. Qed.

Lemma serialize_kick uid :
serialize (mkAction KickInactiveAction (<["user_id" := PInt uid]> ∅))
= inr (kick_args uid).
Proof. vm_compute. reflexivity. Qed.

Lemma serialize_rp uid n m :
serialize (setattr (mkAction RecurrentPaymentAction (rp_args uid n))
             "retries_left" (PInt m))
= inr (rp_args uid m).
Proof. vm_compute. reflexivity. Qed.

Lemma deserialize_rp uid n :
deserialize RecurrentPaymentAction (rp_args uid n)
= inr (mkAction RecurrentPaymentAction (rp_args uid n)).
Proof. vm_compute. reflexivity. Qed.

End Keywords.

(** * Scheduling and running a typed action *)

Section Scheduling.

Implicit Types (s : State) (uid time dt : Z) (u : User).

Lemma raw_schedule_action_ok ty time uid kw u s :
kw !! "user_id" = Some (PInt uid) ->
bool_decide (clashes task_params kw) = false ->
users s !! uid = Some u ->
actions s !! action_id_seq s = None ->
raw_schedule_action true ty time kw s = Ok (action_id_seq s) (scheduled ty time uid kw s).
Proof.
intros Hkw Hclash Hu Hfresh.
unfold raw_schedule_action, session, flush_new_action, bind.
rewrite Hkw, Hu, Hfresh. simpl.
unfold create_scheduled_action_task. rewrite Hclash. reflexivity.
Qed.

Lemma schedule_ok (self : Action) time uid kw u s :
serialize self = inr kw ->
bool_decide (clashes ["action_type"; "time"] kw) = false ->
kw !! "user_id" = Some (PInt uid) ->
bool_decide (clashes task_params kw) = false ->
users s !! uid = Some u ->
actions s !! action_id_seq s = None ->
schedule true self time s
= Ok (mkActionHandle (action_id_seq s))
     (scheduled (get_name (act_cls self)) time uid kw s).
Proof.
intros Hser Hc1 Hkw Hc2 Hu Hfresh. unfold schedule.
rewrite Hser. unfold lift, bind, ret. rewrite Hc1.
rewrite (raw_schedule_action_ok _ _ _ _ _ _ Hkw Hc2 Hu Hfresh). reflexivity.
Qed.

Lemma reset_handler_runs (w : World) dt uid u s :
users s !! uid = Some u -> uid <> 0 ->
call_handler (billing_run w) (billing_raw w) (DoHandle ExtraPlanResetAction)
  dt (kick_args uid) s
= Ok tt (reset_done uid s).
Proof.
intros Hu Hne. unfold call_handler.
rewrite kick_args_handle_ok, deserialize_reset.
unfold lift, bind at 1, ret.
change (billing_run w (reset_action uid) dt s)
  with (ExtraPlanResetAction_run (reset_action uid) dt s).
unfold ExtraPlanResetAction_run, session, getattr, bind.
change (act_vals (reset_action uid) !! "user_id") with (kick_args uid !! "user_id").
rewrite kick_args_user_id. unfold ret, find_user, require_session, bind, ret.
cbn [truthy andb]. apply Z.eqb_neq in Hne. rewrite Hne. cbn [negb].
rewrite Hu. reflexivity.
Qed.

End Scheduling.

(** * What a cancel leaves alone *)

Section CancelFrame.

Implicit Types (s : State) (id : Z) (task : nat).

Lemma cancel_task_other task task' s s' :
cancel_task task' s = Ok tt s' -> task' <> task ->
loop_tasks s' !! task = loop_tasks s !! task.
Proof.
unfold cancel_task. intros [= <-] Hne. simpl.
destruct (loop_tasks s !! task') as [t | ]; [ | reflexivity].
destruct (task_status t); try reflexivity.
by apply list_lookup_insert_ne.
Qed.

Lemma raw_cancel_action_spares cur id' id task s :
id' <> id -> owns id task s ->
exists s', raw_cancel_action cur id' s = Ok tt s'
  /\ spared id task s s' /\ owns id task s'.
Proof.
intros Hne [Hown Hothers].
unfold raw_cancel_action, session, get_scheduled_action, require_session,
  bind, ret, logging, set_done, cancel_task.
destruct (true && cur); simpl;
  (destruct (actions s !! id') as [a | ] eqn:Ha; simpl;
   [destruct (sa_done a) eqn:Hd; simpl;
    [ | destruct (scheduled_tasks s !! id') as [task' | ] eqn:Hidx; simpl] | ]);
  eexists; (split; [reflexivity | ]); unfold spared, owns; simpl;
  rewrite ?lookup_alter_ne by exact Hne;
  rewrite ?lookup_delete_ne by exact Hne;
  repeat split; try done;
  try (intros j Hj; destruct (decide (j = id')) as [-> | Hj'];
       [rewrite lookup_delete_eq; done | rewrite lookup_delete_ne by done; auto]);
  (destruct (loop_tasks s !! task') as [t | ] eqn:Ht; [ | reflexivity];
   destruct (task_status t); try reflexivity;
   apply list_lookup_insert_ne; intros ->; by apply (Hothers id')).
Qed.

Lemma cancel_all_spares cur (found : list (Z * ScheduledAction)) id task s :
Forall (fun r => r.1 <> id) found -> owns id task s ->
exists s', cancel_all cur found s = Ok tt s'
  /\ spared id task s s' /\ owns id task s'.
Proof.
unfold cancel_all. revert s.
induction found as [ | r found IH]; intros s Hall Hown; cbn [for_each].
- exists s. unfold spared. repeat split; auto; apply Hown.
- apply Forall_cons in Hall as [Hr Hall].
  destruct (raw_cancel_action_spares cur r.1 id task s Hr Hown)
    as (s1 & Hrun1 & Hsp1 & Hown1).
  destruct (IH s1 Hall Hown1) as (s2 & Hrun2 & Hsp2 & Hown2).
  exists s2. rewrite (bind_ok _ _ _ _ _ Hrun1).
  split; [exact Hrun2 | ]. split; [ | exact Hown2].
  destruct Hsp1 as (? & ? & ? & ?), Hsp2 as (? & ? & ? & ?).
  unfold spared. repeat split; congruence.
Qed.

(** [cancel_extra_punishments] cancels rows of one type only: a row of any
  other type, its index entry and its task come out as they went in. *)
Lemma cancel_extra_punishments_spares cur uid id (a : ScheduledAction) task s :
actions s !! id = Some a ->
sa_type a <> BillingActions.ExtraPlanPaymentRetry ->
owns id task s ->
exists s', cancel_extra_punishments cur uid s = Ok tt s'
  /\ spared id task s s' /\ owns id task s'.
Proof.
intros Ha Hty Hown.
set (found := List.filter
       (fun r => matches_filter (Some uid) (Some false)
                   (Some [BillingActions.ExtraPlanPaymentRetry]) r.2)
       (map_to_list (actions s))).
assert (Hfound : Forall (fun r => r.1 <> id) found).
{ apply Forall_forall. intros [id' a'] [Hin Hm]%list_elem_of_In%filter_In.
  apply list_elem_of_In, elem_of_map_to_list in Hin. simpl in *.
  intros ->. rewrite Ha in Hin. injection Hin as <-.
  unfold matches_filter in Hm.
  apply andb_prop in Hm as [Hm _]. apply andb_prop in Hm as [_ Hm].
  apply bool_decide_eq_true in Hm. apply list_elem_of_singleton in Hm. done. }
destruct (cancel_all_spares true found id task s Hfound Hown)
  as (s' & Hrun & Hsp & Hown').
exists s'. split; [ | split; assumption].
unfold cancel_extra_punishments, session, find_scheduled_actions,
  require_session, bind, ret.
destruct (true && cur); simpl; fold found; rewrite Hrun; reflexivity.
Qed.

End CancelFrame.

(** * Cancelling the extra punishments of a user *)

(** C2, refuted as stated. User 7 has the marker NOTIFIED; the reset is
    scheduled for 1000, [cancel_extra_punishments(7)] is called, and at 2000
    the task gets its turn: the marker is not what it was. *)
Lemma reset_runs_despite_cancel :
  ~ reset_never_runs declined 7 1000 2000 with_user7.
Proof. vm_compute. intros [Hmarker _]. discriminate Hmarker. Qed.

(** C2, amended. [cancel_extra_punishments] does not cancel a scheduled
    [ExtraPlanResetAction]: after the call the row is still pending, indexed
    and its task armed; once its time has come the action runs, sets the
    marker of the user to UNUSED, and the row is done by completion. *)
Theorem reset_survives_cancel_extra_punishments
    (w : World) (uid time now : Z) (u : User) (s : State) :
  users s !! uid = Some u -> uid <> 0 ->
  actions s !! action_id_seq s = None ->
  (forall j task, scheduled_tasks s !! j = Some task ->
     (task < length (loop_tasks s))%nat) ->
  handlers s !! BillingActions.ExtraPlanReset = Some (DoHandle ExtraPlanResetAction) ->
  time <= now ->
  let id := action_id_seq s in
  let r := schedule_cancel_wait w uid time now s in
  done_flag id r.1 = Some false
  /\ scheduled_tasks r.1 !! id = Some (length (loop_tasks s))
  /\ task_status <$> loop_tasks r.1 !! length (loop_tasks s) = Some TaskPending
  /\ advance_service_state uid r.2 = Some AdvanceServiceState.UNUSED
  /\ done_flag id r.2 = Some true.
Proof.
  intros Hu Hne Hfresh Hidx Hh Hdue id r. subst r.
  assert (Hid : id = action_id_seq s) by reflexivity. clearbody id.
  set (h := length (loop_tasks s)).
  set (kw := kick_args uid).
  set (s1 := scheduled BillingActions.ExtraPlanReset time uid kw s).
  assert (Hsched : schedule true (reset_action uid) time s = Ok (mkActionHandle id) s1).
  { rewrite Hid. apply (schedule_ok (reset_action uid) time uid kw u s);
      auto using serialize_reset, kick_args_schedule_ok, kick_args_user_id,
        kick_args_task_ok. }
  assert (Hrow : actions s1 !! id
                 = Some (mkScheduledAction (Some uid) time false
                           BillingActions.ExtraPlanReset kw))
    by (rewrite Hid; apply lookup_insert_eq).
  assert (Htask : loop_tasks s1 !! h
                  = Some (mkTask id BillingActions.ExtraPlanReset time kw TaskPending)).
  { rewrite Hid. simpl. rewrite lookup_app_r by (unfold h; lia).
    replace (h - length (loop_tasks s))%nat with 0%nat by (unfold h; lia).
    reflexivity. }
  assert (Hown : owns id h s1).
  { rewrite Hid. split; [apply lookup_insert_eq | ]. intros j Hj. simpl.
    rewrite lookup_insert_ne by congruence. intros Hjh.
    apply Hidx in Hjh. unfold h in Hjh. lia. }
  destruct (cancel_extra_punishments_spares true uid id _ h s1 Hrow) as
    (s2 & Hcancel & (Husers & Hhandlers & Hrow2 & Htask2) & [Hidx2 _]);
    [done | exact Hown | ].
  unfold schedule_cancel_wait. rewrite <- Hid, Hsched. cbn [state_of].
  rewrite Hcancel. cbn [state_of]. destruct Hown as [-> _]. cbn [fst snd].
  rewrite Hrow in Hrow2. rewrite Htask in Htask2.
  assert (Hu2 : users s2 !! uid = Some u) by (rewrite Husers; exact Hu).
  split; [unfold done_flag; by rewrite Hrow2 | ].
  split; [exact Hidx2 | ].
  split; [by rewrite Htask2 | ].
  unfold run_task. rewrite Htask2. cbn [task_status task_dt task_action_id
    task_action_type task_kwargs].
  rewrite bool_decide_eq_true_2 by exact Hdue.
  rewrite (perform_action_returned _ _ _ _ _ _ _ (DoHandle ExtraPlanResetAction)
             (reset_done uid s2)).
  - change (actions (reset_done uid s2)) with (actions s2). rewrite Hrow2.
    unfold advance_service_state, done_flag. simpl.
    rewrite !lookup_alter_eq, Hu2, Hrow2. simpl.
    split; [apply lookup_insert_eq | reflexivity].
  - rewrite Hhandlers. exact Hh.
  - apply (reset_handler_runs w time uid u s2); assumption.
Qed.

Lemma reset_survives_cancel_extra_punishments_witness :
  let r := schedule_cancel_wait declined 7 1000 2000 with_user7 in
  done_flag 1 r.1 = Some false
  /\ advance_service_state 7 r.1 = Some AdvanceServiceState.NOTIFIED
  /\ advance_service_state 7 r.2 = Some AdvanceServiceState.UNUSED
  /\ done_flag 1 r.2 = Some true.
Proof.
  destruct (reset_survives_cancel_extra_punishments declined 7 1000 2000 user7
              with_user7) as (Hpending & _ & _ & Hmarker & Hdone).
  - vm_compute. reflexivity.
  - lia.
  - vm_compute. reflexivity.
  - intros j task Hj. vm_compute in Hj. discriminate Hj.
  - vm_compute. reflexivity.
  - lia.
  - cbv zeta. split; [exact Hpending | ]. split; [vm_compute; reflexivity | ].
    split; [exact Hmarker | exact Hdone].
Defined.

(** * The retry budget of a recurrent payment *)

Section RetryBudget.

Implicit Types (s : State) (uid dt n : Z) (u : User) (w : World).

Lemma chargeable_recovered uid b u s :
users s !! uid = Some u -> chargeable u ->
exists u', users (recovered uid b s) !! uid = Some u' /\ chargeable u'.
Proof.
intros Hu Hc. eexists. split.
- simpl. rewrite lookup_alter_eq, Hu. reflexivity.
- exact Hc.
Qed.

Lemma charge_declined w u s :
w_charge w = ChargeRaises CpPaymentError -> is_Some (payment_token u) ->
charge w true u s = Raise CpPaymentError s.
Proof.
intros Hw [tok Htok]. unfold charge, require_session, bind, ret.
rewrite Htok, Hw. reflexivity.
Qed.

Lemma except_retries dt uid n u s :
0 < n -> users s !! uid = Some u -> actions s !! action_id_seq s = None ->
RecurrentPaymentAction_except true (mkAction RecurrentPaymentAction (rp_args uid n))
  dt uid s
= Ok tt (recovered uid false
           (scheduled BillingActions.RecurrentPayment (dt + CHARGE_RETRY_PERIOD)
              uid (rp_args uid (n - 1)) s)).
Proof.
intros Hn Hu Hfresh. unfold RecurrentPaymentAction_except, getattr.
change (act_vals (mkAction RecurrentPaymentAction (rp_args uid n)))
  with (rp_args uid n).
rewrite rp_args_retries_left. unfold bind at 1, ret. unfold bind at 1.
cbn [as_int lift]. unfold ret at 1.
apply Z.ltb_lt in Hn. rewrite Hn.
unfold bind, ret.
rewrite (schedule_ok _ (dt + CHARGE_RETRY_PERIOD) uid (rp_args uid (n - 1)) u s
     (serialize_rp uid n (n - 1)) (rp_args_schedule_ok _ _) (rp_args_user_id _ _)
     (rp_args_task_ok _ _) Hu Hfresh).
reflexivity.
Qed.

Lemma except_kicks dt uid n u s :
n <= 0 -> users s !! uid = Some u -> actions s !! action_id_seq s = None ->
RecurrentPaymentAction_except true (mkAction RecurrentPaymentAction (rp_args uid n))
  dt uid s
= Ok tt (recovered uid false
           (scheduled BillingActions.KickInactive (dt + AUTO_KICK_PERIOD)
              uid (kick_args uid) s)).
Proof.
intros Hn Hu Hfresh. unfold RecurrentPaymentAction_except, getattr.
change (act_vals (mkAction RecurrentPaymentAction (rp_args uid n)))
  with (rp_args uid n).
rewrite rp_args_retries_left, rp_args_user_id.
unfold bind at 1, ret. unfold bind at 1.
cbn [as_int lift]. unfold ret at 1.
apply Z.ltb_ge in Hn. rewrite Hn.
unfold bind, ret.
rewrite (schedule_ok _ (dt + AUTO_KICK_PERIOD) uid (kick_args uid) u s
     (serialize_kick uid) (kick_args_schedule_ok _) (kick_args_user_id _)
     (kick_args_task_ok _) Hu Hfresh).
reflexivity.
Qed.

(** The notification only ever adds to the log. *)
Lemma notify_payment_log w (tg : option string) s :
exists lg, state_of (notify_payment w tg s) = set_log (fun _ => lg) s.
Proof.
unfold notify_payment. destruct tg as [tg | ]; [ | exists (log s); by destruct s].
destruct (w_tg w) as [[] | ]; simpl;
  first [by eexists (log s ++ _)%list | exists (log s); by destruct s].
Qed.

(** One declined charge, seen from the registered handler: the state after
  the [except] block, up to the log. *)
Lemma declined_run w dt uid n u s :
w_charge w = ChargeRaises CpPaymentError ->
users s !! uid = Some u -> uid <> 0 -> chargeable u ->
actions s !! action_id_seq s = None ->
exists lg,
  state_of (call_handler (billing_run w) (billing_raw w)
              (DoHandle RecurrentPaymentAction) dt (rp_args uid n) s)
  = set_log (fun _ => lg)
      (state_of (RecurrentPaymentAction_except true
                   (mkAction RecurrentPaymentAction (rp_args uid n)) dt uid s)).
Proof.
intros Hw Hu Hne (Htok & plan & price & Hsub & Hprice & Hp0) Hfresh.
unfold call_handler. rewrite rp_args_handle_ok, deserialize_rp.
unfold lift, bind at 1, ret.
change (billing_run w (mkAction RecurrentPaymentAction (rp_args uid n)) dt s)
  with (RecurrentPaymentAction_run w
          (mkAction RecurrentPaymentAction (rp_args uid n)) dt s).
unfold RecurrentPaymentAction_run, session, getattr.
change (act_vals (mkAction RecurrentPaymentAction (rp_args uid n)))
  with (rp_args uid n).
rewrite rp_args_user_id. cbn [andb].
unfold bind at 1. unfold bind at 1. unfold ret at 1.
unfold find_user, require_session. unfold bind at 1. unfold bind at 1.
unfold ret at 1. cbn [truthy]. apply Z.eqb_neq in Hne. rewrite Hne. cbn [negb].
rewrite Hu. cbn [fmap option_fmap option_map]. rewrite Hsub, Hprice.
assert (Hexc : exists s1,
  RecurrentPaymentAction_except true
    (mkAction RecurrentPaymentAction (rp_args uid n)) dt uid s = Ok tt s1).
{ destruct (Z.lt_ge_cases 0 n).
  - eexists. by eapply except_retries.
  - eexists. by eapply except_kicks. }
destruct Hexc as [s1 Hexc]. rewrite Hexc. cbn [state_of].
assert (Htry : forall self,
  RecurrentPaymentAction_try w true self uid u s = Raise CpPaymentError s).
{ intros self. unfold RecurrentPaymentAction_try.
  apply bind_raise, charge_declined; assumption. }
destruct price as [ | p | p]; [done | | ];
  erewrite bind_ok by (unfold try_except; rewrite Htry; exact Hexc);
  unfold ret; apply notify_payment_log.
Qed.

End RetryBudget.

Section RetryChain.

Implicit Types (s : State) (uid dt n : Z) (u : User) (w : World).

Lemma declined_step w dt uid n u s :
w_charge w = ChargeRaises CpPaymentError ->
users s !! uid = Some u -> uid <> 0 -> chargeable u ->
actions s !! action_id_seq s = None ->
exists s1,
  state_of (call_handler (billing_run w) (billing_raw w)
              (DoHandle RecurrentPaymentAction) dt (rp_args uid n) s) = s1
  /\ action_id_seq s1 = action_id_seq s + 1
  /\ actions s1 = <[action_id_seq s := successor uid dt n]> (actions s)
  /\ exists u', users s1 !! uid = Some u' /\ chargeable u'.
Proof.
intros Hw Hu Hne Hc Hfresh.
destruct (declined_run w dt uid n u s Hw Hu Hne Hc Hfresh) as [lg ->].
eexists. split; [reflexivity | ]. unfold successor.
destruct (Z.lt_ge_cases 0 n) as [Hn | Hn].
- rewrite (except_retries dt uid n u s Hn Hu Hfresh).
  apply Z.ltb_lt in Hn. rewrite Hn. simpl.
  split; [lia | ]. split; [reflexivity | ].
  rewrite lookup_alter_eq, Hu. eexists. split; [reflexivity | exact Hc].
- rewrite (except_kicks dt uid n u s Hn Hu Hfresh).
  apply Z.ltb_ge in Hn. rewrite Hn. simpl.
  split; [lia | ]. split; [reflexivity | ].
  rewrite lookup_alter_eq, Hu. eexists. split; [reflexivity | exact Hc].
Qed.

Lemma row_ext (uid : option Z) (t1 t2 : Z) (ty : string) (kw1 kw2 : kwargs) :
t1 = t2 -> kw1 = kw2 ->
Some (mkScheduledAction uid t1 false ty kw1)
= Some (mkScheduledAction uid t2 false ty kw2).
Proof. by intros -> ->. Qed.

End RetryChain.

(** C1. A recurrent payment of user [uid] runs at [dt] with
    [retries_left = N] and the charge is declined [N + 1] times in a row,
    each run being the one the previous run scheduled. The first [N] runs
    each schedule one [RecurrentPaymentAction], one retry period after the
    run, with [retries_left] going [N - 1, ..., 0]; the last run schedules a
    [KickInactiveAction] one kick period after itself, and no row besides
    these [N + 1] is written. *)
Theorem retry_budget (N : nat) (ws : list World) (dt uid : Z) (u : User) (s : State) :
  length ws = S N ->
  Forall (fun w => w_charge w = ChargeRaises CpPaymentError) ws ->
  users s !! uid = Some u -> uid <> 0 -> chargeable u ->
  (forall i, action_id_seq s <= i -> actions s !! i = None) ->
  let id0 := action_id_seq s in
  let s' := consecutive_runs ws dt (rp_args uid (Z.of_nat N)) s in
  action_id_seq s' = id0 + Z.of_nat N + 1
  /\ (forall k : nat, (k < N)%nat ->
        actions s' !! (id0 + Z.of_nat k)
        = Some (mkScheduledAction (Some uid)
                  (dt + (Z.of_nat k + 1) * CHARGE_RETRY_PERIOD) false
                  BillingActions.RecurrentPayment
                  (rp_args uid (Z.of_nat N - 1 - Z.of_nat k))))
  /\ actions s' !! (id0 + Z.of_nat N)
     = Some (mkScheduledAction (Some uid)
               (dt + Z.of_nat N * CHARGE_RETRY_PERIOD + AUTO_KICK_PERIOD) false
               BillingActions.KickInactive (kick_args uid))
  /\ (forall i, i < id0 \/ id0 + Z.of_nat N < i -> actions s' !! i = actions s !! i).
Proof.
  revert ws dt u s.
  induction N as [ | N IH]; intros ws dt u s Hlen Hws Hu Hne Hc Hfresh id0 s';
    subst id0 s'; (destruct ws as [ | w ws]; [discriminate | ]);
    apply Forall_cons in Hws as [Hw Hws]; injection Hlen as Hlen;
    cbn [consecutive_runs].
  - destruct (declined_step w dt uid (Z.of_nat 0) u s Hw Hu Hne Hc
                (Hfresh _ (Z.le_refl _))) as (s1 & -> & Hseq & Hact & _).
    unfold successor in Hact. change (0 <? Z.of_nat 0) with false in Hact.
    rewrite Hact, lookup_insert_eq. cbn [sa_type].
    change (String.eqb BillingActions.KickInactive BillingActions.RecurrentPayment)
      with false. cbv iota.
    rewrite Hact, Hseq. split; [lia | ]. split; [intros k Hk; exfalso; clear -Hk; lia | ].
    split.
    + rewrite Z.add_0_r, lookup_insert_eq. apply row_ext; [lia | reflexivity].
    + intros i Hi. apply lookup_insert_ne. lia.
  - destruct (declined_step w dt uid (Z.of_nat (S N)) u s Hw Hu Hne Hc
                (Hfresh _ (Z.le_refl _))) as (s1 & -> & Hseq & Hact & u1 & Hu1 & Hc1).
    unfold successor in Hact.
    replace (0 <? Z.of_nat (S N)) with true in Hact by (symmetry; apply Z.ltb_lt; lia).
    rewrite Hact, lookup_insert_eq. cbn [sa_type sa_time sa_args].
    change (String.eqb BillingActions.RecurrentPayment BillingActions.RecurrentPayment)
      with true. cbv iota.
    replace (Z.of_nat (S N) - 1) with (Z.of_nat N) by lia.
    assert (Hfresh1 : forall i, action_id_seq s1 <= i -> actions s1 !! i = None).
    { intros i Hi. rewrite Hact, lookup_insert_ne by lia. apply Hfresh. lia. }
    destruct (IH ws (dt + CHARGE_RETRY_PERIOD) u1 s1 Hlen Hws Hu1 Hne Hc1 Hfresh1)
      as (IHseq & IHretry & IHkick & IHother).
    rewrite Hseq in *. split; [rewrite IHseq; lia | ]. split; [ | split].
    + intros [ | k] Hk.
      * rewrite Z.add_0_r, IHother by lia. rewrite Hact, lookup_insert_eq.
        apply row_ext; [lia | f_equal; lia].
      * replace (action_id_seq s + Z.of_nat (S k))
          with (action_id_seq s + 1 + Z.of_nat k) by lia.
        rewrite IHretry by lia. apply row_ext; [lia | f_equal; lia].
    + replace (action_id_seq s + Z.of_nat (S N))
        with (action_id_seq s + 1 + Z.of_nat N) by lia.
      rewrite IHkick. apply row_ext; [lia | reflexivity].
    + intros i Hi. rewrite IHother by lia. rewrite Hact. apply lookup_insert_ne. lia.
Qed.

Lemma retry_budget_witness :
  let s' := consecutive_runs [declined; declined; declined] 1000 (rp_args 7 2)
              with_user7 in
  action_id_seq s' = 4
  /\ actions s' !! 1
     = Some (mkScheduledAction (Some 7) (1000 + 1 * CHARGE_RETRY_PERIOD) false
               BillingActions.RecurrentPayment (rp_args 7 1))
  /\ actions s' !! 2
     = Some (mkScheduledAction (Some 7) (1000 + 2 * CHARGE_RETRY_PERIOD) false
               BillingActions.RecurrentPayment (rp_args 7 0))
  /\ actions s' !! 3
     = Some (mkScheduledAction (Some 7)
               (1000 + 2 * CHARGE_RETRY_PERIOD + AUTO_KICK_PERIOD) false
               BillingActions.KickInactive (kick_args 7)).
Proof.
  destruct (retry_budget 2 [declined; declined; declined] 1000 7 user7 with_user7)
    as (Hseq & Hretry & Hkick & _).
  - reflexivity.
  - repeat constructor.
  - vm_compute. reflexivity.
  - lia.
  - split; [by eexists | ]. exists (mkPlan 1 (Some 500)), 500.
    split; [reflexivity | ]. split; [reflexivity | lia].
  - intros i Hi.
    change (actions with_user7) with (∅ : gmap Z ScheduledAction).
    apply lookup_empty.
  - cbv zeta. split; [exact Hseq | ].
    split; [exact (Hretry 0%nat ltac:(lia)) | ].
    split; [exact (Hretry 1%nat ltac:(lia)) | exact Hkick].
Defined.
